(** * Click-to-talk signaling core: a shallow embedding

    The development follows the three TypeScript classes of the WebRTC
    click-to-talk system:

    - [WebRTC]    : [WebRTCConnection]  (src/webrtc.ts)
    - [Signaling] : [SignalingService]  (src/signaling.ts)
    - [App]       : [ClickToTalkApp]    (src/main.ts)

    [Platform] is the browser's RTCPeerConnection as these classes drive
    it, and [Relay] puts two tabs in front of one Supabase project.

    Every method is an action of one state-and-exception monad [M T A]:
    [T] is the type of [this], a [World] carries what lives outside the
    object (the browser console, the microphone permission, the Supabase
    backend and its broadcast relay), and an action either returns a value
    or throws.  [await] is sequencing: a handler runs to completion before
    the next event is delivered. *)

From Stdlib Require Import Ascii String List Bool Arith Lia.
Import ListNotations.
Local Open Scope string_scope.
Local Open Scope list_scope.

(** ** src/types.ts *)

Inductive SignalType : Type :=
| SigOffer
| SigAnswer
| SigIceCandidate
| SigJoin
| SigLeave.

Inductive SdpType : Type := SdpOffer | SdpAnswer.

(** [signal_data: RTCSessionDescriptionInit | RTCIceCandidateInit | object] *)
Inductive SignalData : Type :=
| EmptyObject
| SessionDescription (type : SdpType) (sdp : string)
| IceCandidateInit (candidate : string)
| OtherObject (json : string).

Record SignalMessage : Type := {
  room_id : string;
  peer_id : string;
  target_peer_id : option string;
  signal_type : SignalType;
  signal_data : SignalData
}.

Record Room : Type := {
  id : string;
  name : string
}.

(** ** JavaScript values *)

(** Truthiness of a [string | null]: [null] and the empty string are falsy. *)
Definition truthy (v : option string) : bool :=
  match v with
  | None => false
  | Some s => negb (s =? "")
  end.

(** [a === b] for a [string] and a [string | null]. *)
Definition strict_eq (a : string) (b : option string) : bool :=
  match b with
  | None => false
  | Some s => a =? s
  end.

Definition is_some {A : Type} (o : option A) : bool :=
  match o with Some _ => true | None => false end.

Inductive Error : Type :=
| JsError (message : string)
| TypeError (message : string)
| DOMException (name : string)
| PostgrestError (message : string).

(** ** The world outside the objects *)

(** Calls to the browser and to the Supabase client that leave no other
    mark in the model. *)
Inductive Call : Type :=
| GetUserMedia
| TrackStop
| PeerConnectionClose
| InsertSignal (m : SignalMessage)
| Broadcast (topic : string) (m : SignalMessage)
| Subscribe (topic : string)
| Unsubscribe (topic : string).

(** What one browser tab holds. *)
Record Browser : Type := {
  console : list (string * Error);       (* console.error lines, oldest first *)
  mic_granted : bool;                    (* outcome of getUserMedia *)
  online : bool;                         (* does the Supabase backend answer *)
  sdp_blob : string;                     (* what createOffer/createAnswer produce *)
  subscriptions : list string;           (* topics this tab listens on *)
  trace : list Call                      (* external calls, oldest first *)
}.

(** The Supabase project every tab talks to. *)
Record Backend : Type := {
  rooms : list Room;                     (* table [rooms] *)
  signaling_table : list SignalMessage;  (* table [signaling] *)
  wire : list (string * SignalMessage)   (* broadcasts accepted by the relay *)
}.

Record World : Type := {
  browser : Browser;
  backend : Backend
}.

Definition on_browser (f : Browser -> Browser) (w : World) : World :=
  {| browser := f (browser w); backend := backend w |}.

Definition on_backend (f : Backend -> Backend) (w : World) : World :=
  {| browser := browser w; backend := f (backend w) |}.

Definition log_error (label : string) (e : Error) : World -> World :=
  on_browser (fun b =>
    {| console := console b ++ [(label, e)]; mic_granted := mic_granted b;
       online := online b; sdp_blob := sdp_blob b;
       subscriptions := subscriptions b; trace := trace b |}).

Definition record_call (c : Call) : World -> World :=
  on_browser (fun b =>
    {| console := console b; mic_granted := mic_granted b;
       online := online b; sdp_blob := sdp_blob b;
       subscriptions := subscriptions b; trace := trace b ++ [c] |}).

Definition set_subscriptions (l : list string) : World -> World :=
  on_browser (fun b =>
    {| console := console b; mic_granted := mic_granted b;
       online := online b; sdp_blob := sdp_blob b;
       subscriptions := l; trace := trace b |}).

Definition set_rooms (l : list Room) : World -> World :=
  on_backend (fun b =>
    {| rooms := l; signaling_table := signaling_table b; wire := wire b |}).

Definition set_signaling_table (l : list SignalMessage) : World -> World :=
  on_backend (fun b =>
    {| rooms := rooms b; signaling_table := l; wire := wire b |}).

Definition set_wire (l : list (string * SignalMessage)) : World -> World :=
  on_backend (fun b =>
    {| rooms := rooms b; signaling_table := signaling_table b; wire := l |}).

(** ** The monad of method bodies *)

Inductive Outcome (A : Type) : Type :=
| Returned (a : A)
| Thrown (e : Error).

Arguments Returned {A} a.
Arguments Thrown {A} e.

Definition M (T A : Type) : Type := T -> World -> Outcome A * T * World.

Definition ret {T A : Type} (a : A) : M T A :=
  fun t w => (Returned a, t, w).

Definition bind {T A B : Type} (m : M T A) (k : A -> M T B) : M T B :=
  fun t w =>
    match m t w with
    | (Returned a, t', w') => k a t' w'
    | (Thrown e, t', w') => (Thrown e, t', w')
    end.

Definition throw {T A : Type} (e : Error) : M T A :=
  fun t w => (Thrown e, t, w).

(** [try { m } catch (error) { h error }]: what [m] wrote before it threw
    stays written. *)
Definition try_catch {T A : Type} (m : M T A) (h : Error -> M T A) : M T A :=
  fun t w =>
    match m t w with
    | (Returned a, t', w') => (Returned a, t', w')
    | (Thrown e, t', w') => h e t' w'
    end.

Definition get_this {T : Type} : M T T :=
  fun t w => (Returned t, t, w).

Definition modify_this {T : Type} (f : T -> T) : M T unit :=
  fun t w => (Returned tt, f t, w).

Definition get_world {T : Type} : M T World :=
  fun t w => (Returned w, t, w).

Definition modify_world {T : Type} (f : World -> World) : M T unit :=
  fun t w => (Returned tt, t, f w).

(** Run a method of the object held in a field of [this]. *)
Definition call_on {T U A : Type} (u : U) (put : U -> T -> T) (m : M U A)
  : M T A :=
  fun t w =>
    match m u w with
    | (o, u', w') => (o, put u' t, w')
    end.

Declare Scope js_scope.
Delimit Scope js_scope with js.
Notation "x <- m ;; k" := (bind m (fun x => k))
  (at level 61, m at next level, right associativity) : js_scope.
Notation "m ;; k" := (bind m (fun _ => k))
  (at level 61, right associativity) : js_scope.
Local Open Scope js_scope.

Definition console_error {T : Type} (label : string) (e : Error) : M T unit :=
  modify_world (log_error label e).

Definition external {T : Type} (c : Call) : M T unit :=
  modify_world (record_call c).

Definition outcome_of {T A : Type} (r : Outcome A * T * World) : Outcome A :=
  fst (fst r).
Definition this_of {T A : Type} (r : Outcome A * T * World) : T :=
  snd (fst r).
Definition world_of {T A : Type} (r : Outcome A * T * World) : World :=
  snd r.

Definition returns {A : Type} (o : Outcome A) : bool :=
  match o with Returned _ => true | Thrown _ => false end.

(** ** The browser's media stack, as far as the code drives it

    [RTCPeerConnection] keeps the two descriptions, the signaling state and
    the remote candidates it accepted.  The rejections are those of the
    WebRTC API: a description that is not one, a description that does not
    fit the signaling state, an answer asked for without a remote offer, a
    candidate added while no remote description is set. *)

Module Platform.

Inductive SignalingState : Type :=
| stable
| have_local_offer
| have_remote_offer.

Record MediaStream : Type := {
  tracks : list string
}.

Record RTCPeerConnection : Type := {
  signalingState : SignalingState;
  localDescription : option SignalData;
  remoteDescription : option SignalData;
  senders : list string;
  remoteCandidates : list string
}.

Definition new_RTCPeerConnection : RTCPeerConnection :=
  {| signalingState := stable; localDescription := None;
     remoteDescription := None; senders := []; remoteCandidates := [] |}.

Definition microphone : MediaStream := {| tracks := ["audio"] |}.

Definition addTrack (track : string) (pc : RTCPeerConnection)
  : RTCPeerConnection :=
  {| signalingState := signalingState pc;
     localDescription := localDescription pc;
     remoteDescription := remoteDescription pc;
     senders := senders pc ++ [track];
     remoteCandidates := remoteCandidates pc |}.

Definition createOffer (blob : string) (pc : RTCPeerConnection)
  : Outcome SignalData :=
  Returned (SessionDescription SdpOffer blob).

Definition createAnswer (blob : string) (pc : RTCPeerConnection)
  : Outcome SignalData :=
  match signalingState pc with
  | have_remote_offer => Returned (SessionDescription SdpAnswer blob)
  | _ => Thrown (DOMException "InvalidStateError")
  end.

Definition setLocalDescription (d : SignalData) (pc : RTCPeerConnection)
  : Outcome RTCPeerConnection :=
  match d, signalingState pc with
  | SessionDescription SdpOffer _, (stable | have_local_offer) =>
      Returned {| signalingState := have_local_offer;
                  localDescription := Some d;
                  remoteDescription := remoteDescription pc;
                  senders := senders pc;
                  remoteCandidates := remoteCandidates pc |}
  | SessionDescription SdpAnswer _, have_remote_offer =>
      Returned {| signalingState := stable;
                  localDescription := Some d;
                  remoteDescription := remoteDescription pc;
                  senders := senders pc;
                  remoteCandidates := remoteCandidates pc |}
  | SessionDescription _ _, _ => Thrown (DOMException "InvalidStateError")
  | _, _ => Thrown (TypeError "not a session description")
  end.

(** A remote offer that meets a pending local offer rolls the local one
    back. *)
Definition setRemoteDescription (d : SignalData) (pc : RTCPeerConnection)
  : Outcome RTCPeerConnection :=
  match d, signalingState pc with
  | SessionDescription SdpOffer _, (stable | have_remote_offer) =>
      Returned {| signalingState := have_remote_offer;
                  localDescription := localDescription pc;
                  remoteDescription := Some d;
                  senders := senders pc;
                  remoteCandidates := remoteCandidates pc |}
  | SessionDescription SdpOffer _, have_local_offer =>
      Returned {| signalingState := have_remote_offer;
                  localDescription := None;
                  remoteDescription := Some d;
                  senders := senders pc;
                  remoteCandidates := remoteCandidates pc |}
  | SessionDescription SdpAnswer _, have_local_offer =>
      Returned {| signalingState := stable;
                  localDescription := localDescription pc;
                  remoteDescription := Some d;
                  senders := senders pc;
                  remoteCandidates := remoteCandidates pc |}
  | SessionDescription SdpAnswer _, _ =>
      Thrown (DOMException "InvalidStateError")
  | _, _ => Thrown (TypeError "not a session description")
  end.

Definition addIceCandidate (c : SignalData) (pc : RTCPeerConnection)
  : Outcome RTCPeerConnection :=
  match c with
  | IceCandidateInit cand =>
      match remoteDescription pc with
      | None => Thrown (DOMException "InvalidStateError")
      | Some _ =>
          Returned {| signalingState := signalingState pc;
                      localDescription := localDescription pc;
                      remoteDescription := remoteDescription pc;
                      senders := senders pc;
                      remoteCandidates := remoteCandidates pc ++ [cand] |}
      end
  | _ => Thrown (TypeError "not a candidate")
  end.

End Platform.

(** [navigator.mediaDevices.getUserMedia({ audio: true, video: false })] *)
Definition getUserMedia {T : Type} : M T Platform.MediaStream :=
  external GetUserMedia ;;
  w <- get_world ;;
  if mic_granted (browser w) then ret Platform.microphone
  else throw (DOMException "NotAllowedError").

(** ** src/webrtc.ts *)

Module WebRTC.

Import Platform.

Inductive RemoteStreamCallback : Type := SetRemoteAudio.
Inductive IceCandidateCallback : Type := SendIceCandidate.

Record WebRTCConnection : Type := {
  peerConnection : option RTCPeerConnection;
  localStream : option MediaStream;
  remoteStream : option MediaStream;
  onRemoteStreamCallback : option RemoteStreamCallback;
  onIceCandidateCallback : option IceCandidateCallback
}.

Definition new_WebRTCConnection : WebRTCConnection :=
  {| peerConnection := None; localStream := None; remoteStream := None;
     onRemoteStreamCallback := None; onIceCandidateCallback := None |}.

Definition set_peerConnection (v : option RTCPeerConnection)
  (c : WebRTCConnection) : WebRTCConnection :=
  {| peerConnection := v; localStream := localStream c;
     remoteStream := remoteStream c;
     onRemoteStreamCallback := onRemoteStreamCallback c;
     onIceCandidateCallback := onIceCandidateCallback c |}.

Definition set_localStream (v : option MediaStream)
  (c : WebRTCConnection) : WebRTCConnection :=
  {| peerConnection := peerConnection c; localStream := v;
     remoteStream := remoteStream c;
     onRemoteStreamCallback := onRemoteStreamCallback c;
     onIceCandidateCallback := onIceCandidateCallback c |}.

Definition set_remoteStream (v : option MediaStream)
  (c : WebRTCConnection) : WebRTCConnection :=
  {| peerConnection := peerConnection c; localStream := localStream c;
     remoteStream := v;
     onRemoteStreamCallback := onRemoteStreamCallback c;
     onIceCandidateCallback := onIceCandidateCallback c |}.

Definition not_initialized : Error :=
  JsError "Peer connection not initialized".

(** Lift a call on the platform's connection object: a resolved promise
    replaces the object's state, a rejected one throws. *)
Definition on_pc (f : RTCPeerConnection -> Outcome RTCPeerConnection)
  (pc : RTCPeerConnection) : M WebRTCConnection unit :=
  match f pc with
  | Returned pc' => modify_this (set_peerConnection (Some pc'))
  | Thrown e => throw e
  end.

Definition ask_pc {A : Type} (f : RTCPeerConnection -> Outcome A)
  (pc : RTCPeerConnection) : M WebRTCConnection A :=
  match f pc with
  | Returned a => ret a
  | Thrown e => throw e
  end.

(** [localStream.getTracks().forEach(track => peerConnection.addTrack(...))];
    the guard [this.peerConnection && this.localStream] holds at the call. *)
Definition add_tracks (s : MediaStream) (pc : RTCPeerConnection)
  : RTCPeerConnection :=
  fold_left (fun p t => addTrack t p) (tracks s) pc.

Definition initialize : M WebRTCConnection unit :=
  try_catch
    (stream <- getUserMedia ;;
     modify_this (set_localStream (Some stream)) ;;
     modify_this (set_peerConnection (Some new_RTCPeerConnection)) ;;
     modify_this (set_peerConnection
                    (Some (add_tracks stream new_RTCPeerConnection))))
    (fun error =>
       console_error "Error initializing WebRTC:" error ;;
       throw error).

Definition createOffer : M WebRTCConnection SignalData :=
  this <- get_this ;;
  match peerConnection this with
  | None => throw not_initialized
  | Some pc =>
      w <- get_world ;;
      offer <- ask_pc (Platform.createOffer (sdp_blob (browser w))) pc ;;
      on_pc (setLocalDescription offer) pc ;;
      ret offer
  end.

Definition createAnswer : M WebRTCConnection SignalData :=
  this <- get_this ;;
  match peerConnection this with
  | None => throw not_initialized
  | Some pc =>
      w <- get_world ;;
      answer <- ask_pc (Platform.createAnswer (sdp_blob (browser w))) pc ;;
      on_pc (setLocalDescription answer) pc ;;
      ret answer
  end.

Definition handleOffer (offer : SignalData) : M WebRTCConnection unit :=
  this <- get_this ;;
  match peerConnection this with
  | None => throw not_initialized
  | Some pc => on_pc (setRemoteDescription offer) pc
  end.

Definition handleAnswer (answer : SignalData) : M WebRTCConnection unit :=
  this <- get_this ;;
  match peerConnection this with
  | None => throw not_initialized
  | Some pc => on_pc (setRemoteDescription answer) pc
  end.

Definition addIceCandidate (candidate : SignalData)
  : M WebRTCConnection unit :=
  this <- get_this ;;
  match peerConnection this with
  | None => throw not_initialized
  | Some pc => on_pc (Platform.addIceCandidate candidate) pc
  end.

Definition onRemoteStream (callback : RemoteStreamCallback)
  : M WebRTCConnection unit :=
  modify_this (fun c =>
    {| peerConnection := peerConnection c; localStream := localStream c;
       remoteStream := remoteStream c;
       onRemoteStreamCallback := Some callback;
       onIceCandidateCallback := onIceCandidateCallback c |}).

Definition onIceCandidate (callback : IceCandidateCallback)
  : M WebRTCConnection unit :=
  modify_this (fun c =>
    {| peerConnection := peerConnection c; localStream := localStream c;
       remoteStream := remoteStream c;
       onRemoteStreamCallback := onRemoteStreamCallback c;
       onIceCandidateCallback := Some callback |}).

Fixpoint stop_tracks (ts : list string) : M WebRTCConnection unit :=
  match ts with
  | [] => ret tt
  | _ :: rest => external TrackStop ;; stop_tracks rest
  end.

Definition close : M WebRTCConnection unit :=
  this <- get_this ;;
  match localStream this with
  | Some s => stop_tracks (tracks s)
  | None => ret tt
  end ;;
  match peerConnection this with
  | Some _ => external PeerConnectionClose
  | None => ret tt
  end ;;
  modify_this (set_localStream None) ;;
  modify_this (set_remoteStream None) ;;
  modify_this (set_peerConnection None).

End WebRTC.

(** ** The Supabase client

    [supabase] is the supabase-js client that src/supabase.ts creates.
    Its promises resolve also when the request failed: the failure comes
    back as a value ([{ error }], ['error']), which is why the source can
    test [if (error)] after an insert. *)

(** [from('rooms').select('id').eq('name', roomName).maybeSingle()]:
    [data] is the row when exactly one matches. *)
Definition select_room {T : Type} (roomName : string) : M T (option Room) :=
  w <- get_world ;;
  if online (browser w) then
    match filter (fun r => name r =? roomName) (rooms (backend w)) with
    | [r] => ret (Some r)
    | _ => ret None
    end
  else ret None.

(** Identifier the backend gives to its next row. *)
Fixpoint tally (n : nat) : string :=
  match n with
  | O => ""
  | S k => String "I"%char (tally k)
  end.

Definition fresh_room (roomName : string) (rs : list Room) : Room :=
  {| id := "room-" ++ tally (length rs); name := roomName |}.

(** [from('rooms').insert({ name: roomName }).select('id').single()]:
    the pair [{ data, error }]. *)
Definition insert_room {T : Type} (roomName : string)
  : M T (option Room * option Error) :=
  w <- get_world ;;
  if online (browser w) then
    let r := fresh_room roomName (rooms (backend w)) in
    modify_world (set_rooms (rooms (backend w) ++ [r])) ;;
    ret (Some r, None)
  else ret (None, Some (PostgrestError "fetch failed")).

(** [from('signaling').insert(message)]; the result is dropped by the
    caller. *)
Definition insert_signal {T : Type} (message : SignalMessage) : M T unit :=
  external (InsertSignal message) ;;
  w <- get_world ;;
  if online (browser w) then
    modify_world (set_signaling_table (signaling_table (backend w) ++ [message]))
  else ret tt.

(** [channel.send({ type: 'broadcast', event: 'signal', payload })]; the
    status it resolves to is dropped by the caller. *)
Definition channel_send {T : Type} (topic : string) (message : SignalMessage)
  : M T unit :=
  external (Broadcast topic message) ;;
  w <- get_world ;;
  if online (browser w) then
    modify_world (set_wire (wire (backend w) ++ [(topic, message)]))
  else ret tt.

Definition channel_subscribe {T : Type} (topic : string) : M T unit :=
  external (Subscribe topic) ;;
  w <- get_world ;;
  modify_world (set_subscriptions (topic :: subscriptions (browser w))).

Definition channel_unsubscribe {T : Type} (topic : string) : M T unit :=
  external (Unsubscribe topic) ;;
  w <- get_world ;;
  modify_world
    (set_subscriptions
       (filter (fun t => negb (t =? topic)) (subscriptions (browser w)))).

(** ** src/signaling.ts *)

Module Signaling.

(** The one closure the application registers (main.ts, [joinRoom]). *)
Inductive MessageCallback : Type := HandleSignalMessage.

Record SignalingService : Type := {
  roomId : option string;
  peerId : string;
  channel : option string;      (* the channel's topic *)
  onMessageCallback : option MessageCallback
}.

Definition set_roomId (v : option string) (s : SignalingService)
  : SignalingService :=
  {| roomId := v; peerId := peerId s; channel := channel s;
     onMessageCallback := onMessageCallback s |}.

Definition set_channel (v : option string) (s : SignalingService)
  : SignalingService :=
  {| roomId := roomId s; peerId := peerId s; channel := v;
     onMessageCallback := onMessageCallback s |}.

(** [`peer_${Math.random().toString(36).substring(2, 15)}`]; [rnd] is the
    substring. *)
Definition generatePeerId (rnd : string) : string := "peer_" ++ rnd.

Definition constructor (rnd : string) : SignalingService :=
  {| roomId := None; peerId := generatePeerId rnd; channel := None;
     onMessageCallback := None |}.

Definition sendSignal (signalType : SignalType) (signalData : SignalData)
  (targetPeerId : option string) : M SignalingService unit :=
  this <- get_this ;;
  match roomId this with
  | None => throw (JsError "Not connected to a room")
  | Some rid =>
      if rid =? "" then throw (JsError "Not connected to a room")
      else
        let message :=
          {| room_id := rid; peer_id := peerId this;
             target_peer_id := targetPeerId;
             signal_type := signalType; signal_data := signalData |} in
        insert_signal message ;;
        match channel this with
        | Some topic => channel_send topic message
        | None => ret tt
        end
  end.

Definition topic_of (room : option string) : string :=
  "room:" ++ match room with Some r => r | None => "null" end.

Definition joinRoom (roomName : string) : M SignalingService string :=
  existingRoom <- select_room roomName ;;
  match existingRoom with
  | Some r => modify_this (set_roomId (Some (id r)))
  | None =>
      res <- insert_room roomName ;;
      match snd res with
      | Some error => throw error
      | None =>
          match fst res with
          | Some newRoom => modify_this (set_roomId (Some (id newRoom)))
          | None => throw (TypeError "newRoom is null")
          end
      end
  end ;;
  this <- get_this ;;
  modify_this (set_channel (Some (topic_of (roomId this)))) ;;
  channel_subscribe (topic_of (roomId this)) ;;
  sendSignal SigJoin EmptyObject None ;;
  this <- get_this ;;
  ret (peerId this).

Definition onMessage (callback : MessageCallback)
  : M SignalingService unit :=
  modify_this (fun s =>
    {| roomId := roomId s; peerId := peerId s; channel := channel s;
       onMessageCallback := Some callback |}).

Definition getPeerId : M SignalingService string :=
  this <- get_this ;;
  ret (peerId this).

Definition leave : M SignalingService unit :=
  this <- get_this ;;
  (if truthy (roomId this) then sendSignal SigLeave EmptyObject None
   else ret tt) ;;
  this <- get_this ;;
  match channel this with
  | Some topic =>
      channel_unsubscribe topic ;;
      modify_this (set_channel None)
  | None => ret tt
  end ;;
  modify_this (set_roomId None).

End Signaling.

(** ** src/main.ts *)

Module App.

Inductive StatusType : Type := connected | disconnected | connecting.

(** The parts of the page the controller writes. *)
Record View : Type := {
  statusText : string;            (* statusEl.textContent *)
  statusClass : StatusType;       (* statusEl.className = `status ${type}` *)
  peerInfoText : string;          (* peerInfoEl.textContent *)
  joinButtonDisabled : bool;
  joinSectionHidden : bool;
  callSectionHidden : bool
}.

Record ClickToTalkApp : Type := {
  webrtc : option WebRTC.WebRTCConnection;
  signaling : Signaling.SignalingService;
  remotePeerId : option string;
  isInitiator : bool;
  view : View
}.

Definition set_webrtc (v : option WebRTC.WebRTCConnection)
  (a : ClickToTalkApp) : ClickToTalkApp :=
  {| webrtc := v; signaling := signaling a; remotePeerId := remotePeerId a;
     isInitiator := isInitiator a; view := view a |}.

Definition set_signaling (v : Signaling.SignalingService)
  (a : ClickToTalkApp) : ClickToTalkApp :=
  {| webrtc := webrtc a; signaling := v; remotePeerId := remotePeerId a;
     isInitiator := isInitiator a; view := view a |}.

Definition set_remotePeerId (v : option string)
  (a : ClickToTalkApp) : ClickToTalkApp :=
  {| webrtc := webrtc a; signaling := signaling a; remotePeerId := v;
     isInitiator := isInitiator a; view := view a |}.

Definition set_isInitiator (v : bool)
  (a : ClickToTalkApp) : ClickToTalkApp :=
  {| webrtc := webrtc a; signaling := signaling a;
     remotePeerId := remotePeerId a; isInitiator := v; view := view a |}.

Definition set_view (v : View) (a : ClickToTalkApp) : ClickToTalkApp :=
  {| webrtc := webrtc a; signaling := signaling a;
     remotePeerId := remotePeerId a; isInitiator := isInitiator a;
     view := v |}.

(** The page as [initializeUI] leaves it. *)
Definition initial_view : View :=
  {| statusText := "Connecting..."; statusClass := connecting;
     peerInfoText := ""; joinButtonDisabled := false;
     joinSectionHidden := false; callSectionHidden := true |}.

(** [new ClickToTalkApp()]; [rnd] feeds [generatePeerId]. *)
Definition constructor (rnd : string) : ClickToTalkApp :=
  {| webrtc := None; signaling := Signaling.constructor rnd;
     remotePeerId := None; isInitiator := false; view := initial_view |}.

Definition updateStatus (message : string) (type : StatusType)
  : M ClickToTalkApp unit :=
  modify_this (fun a =>
    set_view {| statusText := message; statusClass := type;
                peerInfoText := peerInfoText (view a);
                joinButtonDisabled := joinButtonDisabled (view a);
                joinSectionHidden := joinSectionHidden (view a);
                callSectionHidden := callSectionHidden (view a) |} a).

Definition set_peerInfo (text : string) : M ClickToTalkApp unit :=
  modify_this (fun a =>
    set_view {| statusText := statusText (view a);
                statusClass := statusClass (view a);
                peerInfoText := text;
                joinButtonDisabled := joinButtonDisabled (view a);
                joinSectionHidden := joinSectionHidden (view a);
                callSectionHidden := callSectionHidden (view a) |} a).

Definition set_joinButtonDisabled (v : bool) : M ClickToTalkApp unit :=
  modify_this (fun a =>
    set_view {| statusText := statusText (view a);
                statusClass := statusClass (view a);
                peerInfoText := peerInfoText (view a);
                joinButtonDisabled := v;
                joinSectionHidden := joinSectionHidden (view a);
                callSectionHidden := callSectionHidden (view a) |} a).

(** [joinSection.classList] and [callSection.classList]: add or remove
    ['hidden']. *)
Definition set_sections (joinHidden callHidden : bool)
  : M ClickToTalkApp unit :=
  modify_this (fun a =>
    set_view {| statusText := statusText (view a);
                statusClass := statusClass (view a);
                peerInfoText := peerInfoText (view a);
                joinButtonDisabled := joinButtonDisabled (view a);
                joinSectionHidden := joinHidden;
                callSectionHidden := callHidden |} a).

(** [this.signaling.m(...)] *)
Definition with_signaling {A : Type} (m : M Signaling.SignalingService A)
  : M ClickToTalkApp A :=
  this <- get_this ;;
  call_on (signaling this) set_signaling m.

(** [this.webrtc.m(...)]; on [null] the property access throws. *)
Definition on_webrtc {A : Type} (m : M WebRTC.WebRTCConnection A)
  : M ClickToTalkApp A :=
  this <- get_this ;;
  match webrtc this with
  | Some c => call_on c (fun c' => set_webrtc (Some c')) m
  | None => throw (TypeError "Cannot read properties of null")
  end.

Definition initializeConnection : M ClickToTalkApp unit :=
  this <- get_this ;;
  if is_some (webrtc this) then ret tt
  else
    modify_this (set_webrtc (Some WebRTC.new_WebRTCConnection)) ;;
    on_webrtc WebRTC.initialize ;;
    on_webrtc (WebRTC.onRemoteStream WebRTC.SetRemoteAudio) ;;
    on_webrtc (WebRTC.onIceCandidate WebRTC.SendIceCandidate) ;;
    this <- get_this ;;
    if isInitiator this && truthy (remotePeerId this) then
      offer <- on_webrtc WebRTC.createOffer ;;
      with_signaling (Signaling.sendSignal SigOffer offer (remotePeerId this))
    else ret tt.

Definition handleSignalMessage (message : SignalMessage)
  : M ClickToTalkApp unit :=
  try_catch
    (match signal_type message with
     | SigJoin =>
         this <- get_this ;;
         if negb (truthy (remotePeerId this)) then
           modify_this (set_remotePeerId (Some (peer_id message))) ;;
           modify_this (set_isInitiator true) ;;
           updateStatus "Peer joined! Ready to talk" connected ;;
           initializeConnection
         else ret tt
     | SigOffer =>
         modify_this (set_remotePeerId (Some (peer_id message))) ;;
         modify_this (set_isInitiator false) ;;
         initializeConnection ;;
         this <- get_this ;;
         (if is_some (webrtc this) then
            on_webrtc (WebRTC.handleOffer (signal_data message)) ;;
            answer <- on_webrtc WebRTC.createAnswer ;;
            this <- get_this ;;
            with_signaling
              (Signaling.sendSignal SigAnswer answer (remotePeerId this))
          else ret tt) ;;
         updateStatus "Connected! Ready to talk" connected
     | SigAnswer =>
         this <- get_this ;;
         if is_some (webrtc this)
            && strict_eq (peer_id message) (remotePeerId this) then
           on_webrtc (WebRTC.handleAnswer (signal_data message)) ;;
           updateStatus "Connected! Ready to talk" connected
         else ret tt
     | SigIceCandidate =>
         this <- get_this ;;
         if is_some (webrtc this)
            && strict_eq (peer_id message) (remotePeerId this) then
           on_webrtc (WebRTC.addIceCandidate (signal_data message))
         else ret tt
     | SigLeave =>
         this <- get_this ;;
         if strict_eq (peer_id message) (remotePeerId this) then
           updateStatus "Peer disconnected" disconnected ;;
           modify_this (set_remotePeerId None) ;;
           this <- get_this ;;
           if is_some (webrtc this) then
             on_webrtc WebRTC.close ;;
             modify_this (set_webrtc None)
           else ret tt
         else ret tt
     end)
    (fun error => console_error "Error handling signal:" error).

(** [roomName] is [this.roomInput.value.trim()]. *)
Definition joinRoom (roomName : string) : M ClickToTalkApp unit :=
  if roomName =? "" then ret tt
  else
    set_joinButtonDisabled true ;;
    updateStatus "Joining room..." connecting ;;
    try_catch
      (with_signaling (Signaling.joinRoom roomName) ;;
       pid <- with_signaling Signaling.getPeerId ;;
       set_peerInfo ("Your ID: " ++ pid) ;;
       with_signaling (Signaling.onMessage Signaling.HandleSignalMessage) ;;
       set_sections true false ;;
       updateStatus "Waiting for peer..." connecting)
      (fun error =>
         console_error "Error joining room:" error ;;
         updateStatus "Failed to join room" disconnected ;;
         set_joinButtonDisabled false).

Definition leaveRoom : M ClickToTalkApp unit :=
  with_signaling Signaling.leave ;;
  this <- get_this ;;
  (if is_some (webrtc this) then
     on_webrtc WebRTC.close ;;
     modify_this (set_webrtc None)
   else ret tt) ;;
  modify_this (set_remotePeerId None) ;;
  modify_this (set_isInitiator false) ;;
  set_sections false true ;;
  set_joinButtonDisabled false ;;
  updateStatus "Disconnected" disconnected.

(** The channel's broadcast listener (signaling.ts, [joinRoom]): it passes
    on what another peer wrote, to the registered callback.  The promise of
    [handleSignalMessage] is not awaited; it never rejects. *)
Definition on_broadcast (payload : SignalMessage) : M ClickToTalkApp unit :=
  this <- get_this ;;
  if negb (peer_id payload =? Signaling.peerId (signaling this))
     && is_some (Signaling.onMessageCallback (signaling this))
  then handleSignalMessage payload
  else ret tt.

(** The closure given to [onIceCandidate] in [initializeConnection]; the
    browser calls it with each local candidate.  The promise of
    [sendSignal] is dropped, a rejection goes nowhere. *)
Definition on_ice_candidate (candidate : SignalData)
  : M ClickToTalkApp unit :=
  this <- get_this ;;
  if truthy (remotePeerId this) then
    try_catch
      (with_signaling
         (Signaling.sendSignal SigIceCandidate candidate
            (remotePeerId this)))
      (fun _ => ret tt)
  else ret tt.

(** Role of a session as its two fields tell it. *)
Inductive Role : Type := Initiator | Responder | Unpaired.

Definition role (a : ClickToTalkApp) : Role :=
  match remotePeerId a with
  | None => Unpaired
  | Some _ => if isInitiator a then Initiator else Responder
  end.

End App.

(** ** Two tabs and the relay between them *)

Module Relay.

Record Tab : Type := {
  app : App.ClickToTalkApp;
  page : Browser
}.

Record System : Type := {
  tabA : Tab;
  tabB : Tab;
  cloud : Backend
}.

Inductive Who : Type := A | B.

Definition other (p : Who) : Who :=
  match p with A => B | B => A end.

Definition tab (p : Who) (s : System) : Tab :=
  match p with A => tabA s | B => tabB s end.

Definition set_tab (p : Who) (t : Tab) (s : System) : System :=
  match p with
  | A => {| tabA := t; tabB := tabB s; cloud := cloud s |}
  | B => {| tabA := tabA s; tabB := t; cloud := cloud s |}
  end.

(** One event handled in tab [p], to completion. *)
Definition act (p : Who) (m : M App.ClickToTalkApp unit) (s : System)
  : System :=
  let t := tab p s in
  match m (app t) {| browser := page t; backend := cloud s |} with
  | (_, a', w') =>
      set_tab p {| app := a'; page := browser w' |}
        {| tabA := tabA s; tabB := tabB s; cloud := backend w' |}
  end.

Definition listens (topic : string) (t : Tab) : bool :=
  existsb (String.eqb topic) (subscriptions (page t)).

Definition deliver (p : Who) (topic : string) (m : SignalMessage)
  (s : System) : System :=
  if listens topic (tab p s) then act p (App.on_broadcast m) s else s.

Definition pop_wire (s : System) : System :=
  {| tabA := tabA s; tabB := tabB s;
     cloud := {| rooms := rooms (cloud s);
                 signaling_table := signaling_table (cloud s);
                 wire := tl (wire (cloud s)) |} |}.

(** The relay hands the broadcasts out in the order it accepted them, each
    to every tab that listens on its topic. *)
Fixpoint pump (fuel : nat) (s : System) : System :=
  match fuel with
  | O => s
  | S n =>
      match wire (cloud s) with
      | [] => s
      | (topic, m) :: _ =>
          pump n (deliver B topic m (deliver A topic m (pop_wire s)))
      end
  end.

Definition fresh_tab (rnd : string) (b : Browser) : Tab :=
  {| app := App.constructor rnd; page := b |}.

(** Tab [first] joins the room, then tab [other first] does; the relay
    runs after each join. *)
Definition meet (fuel : nat) (roomName : string) (first : Who) (s : System)
  : System :=
  pump fuel (act (other first) (App.joinRoom roomName)
               (pump fuel (act first (App.joinRoom roomName) s))).

End Relay.

(** ** Scenarios *)

(** A tab that has just been opened. *)
Definition fresh_browser (mic net : bool) (blob : string) : Browser :=
  {| console := []; mic_granted := mic; online := net; sdp_blob := blob;
     subscriptions := []; trace := [] |}.

(** The room name resolves the way the data model promises: at most one
    row carries it, under a non-empty identifier. *)
Definition resolves_once (roomName : string) (rs : list Room) : Prop :=
  filter (fun r => name r =? roomName) rs = []
  \/ exists r, filter (fun r => name r =? roomName) rs = [r] /\ id r <> "".

Module Scenario.

Import Relay.

(** Two fresh tabs in front of one backend. *)
Definition start (ra rb : string) (pa pb : Browser) (rs : list Room)
  (tbl : list SignalMessage) : System :=
  {| tabA := fresh_tab ra pa; tabB := fresh_tab rb pb;
     cloud := {| rooms := rs; signaling_table := tbl; wire := [] |} |}.

(** Both tabs sit in the room and the join of tab [B] is on the wire. *)
Definition in_room (roomName : string) (s : System) : System :=
  act B (App.joinRoom roomName) (pump 1 (act A (App.joinRoom roomName) s)).

(** Messages handled one after the other. *)
Fixpoint handle_all (ms : list SignalMessage) : M App.ClickToTalkApp unit :=
  match ms with
  | [] => ret tt
  | m :: rest => App.handleSignalMessage m ;; handle_all rest
  end.

Definition signal (room from : string) (to : option string)
  (kind : SignalType) (data : SignalData) : SignalMessage :=
  {| room_id := room; peer_id := from; target_peer_id := to;
     signal_type := kind; signal_data := data |}.

Definition candidates_from (room from : string) (cs : list string)
  : list SignalMessage :=
  map (fun c => signal room from None SigIceCandidate (IceCandidateInit c)) cs.

(** The engine of a session, when it has one that is initialized. *)
Definition engine (a : App.ClickToTalkApp)
  : option Platform.RTCPeerConnection :=
  match App.webrtc a with
  | Some c => WebRTC.peerConnection c
  | None => None
  end.

Definition connection_of (a : App.ClickToTalkApp) : WebRTC.WebRTCConnection :=
  match App.webrtc a with
  | Some c => c
  | None => WebRTC.new_WebRTCConnection
  end.

Definition pc_of (a : App.ClickToTalkApp) : Platform.RTCPeerConnection :=
  match engine a with
  | Some pc => pc
  | None => Platform.new_RTCPeerConnection
  end.

Definition world_at (p : Who) (s : System) : World :=
  {| browser := page (tab p s); backend := cloud s |}.

(** Tabs ["aaa"] and ["bbb"] in room ["demo"]. *)
Definition demo_start (micA micB : bool) : System :=
  start "aaa" "bbb" (fresh_browser micA true "sdp-a")
    (fresh_browser micB true "sdp-b") [] [].

(** [A] and [B] connected to each other. *)
Definition demo_connected : System := meet 3 "demo" A (demo_start true true).

(** [A] has sent its offer and waits for the answer. *)
Definition demo_negotiating : System :=
  pump 1 (in_room "demo" (demo_start true true)).

(** [A] alone in the room. *)
Definition demo_waiting (micA : bool) : System :=
  pump 1 (act A (App.joinRoom "demo") (demo_start micA true)).

Definition room_demo : string := "room-".
Definition peer_a : string := "peer_aaa".
Definition peer_b : string := "peer_bbb".
Definition peer_c : string := "peer_ccc".

End Scenario.

(** ** Vocabulary of the statements *)

(** Shape of the payload each kind carries (section 3 of the
    specification). *)
Definition well_shaped (kind : SignalType) (data : SignalData) : bool :=
  match kind, data with
  | (SigJoin | SigLeave), EmptyObject => true
  | SigOffer, SessionDescription SdpOffer _ => true
  | SigAnswer, SessionDescription SdpAnswer _ => true
  | SigIceCandidate, IceCandidateInit _ => true
  | _, _ => false
  end.

Definition is_description (data : SignalData) : bool :=
  match data with SessionDescription _ _ => true | _ => false end.

Definition is_candidate (data : SignalData) : bool :=
  match data with IceCandidateInit _ => true | _ => false end.

(** Calls a client of [SignalingService] can make. *)
Module Client.

Inductive Op : Type :=
| JoinRoom (roomName : string)
| SendSignal (kind : SignalType) (data : SignalData) (to : option string)
| OnMessage (callback : Signaling.MessageCallback)
| GetPeerId
| Leave.

Definition perform (op : Op) : M Signaling.SignalingService unit :=
  match op with
  | JoinRoom n => Signaling.joinRoom n ;; ret tt
  | SendSignal k d t => Signaling.sendSignal k d t
  | OnMessage cb => Signaling.onMessage cb
  | GetPeerId => Signaling.getPeerId ;; ret tt
  | Leave => Signaling.leave
  end.

(** A caller that goes on after a rejected promise. *)
Fixpoint run (ops : list Op) (s : Signaling.SignalingService) (w : World)
  : Signaling.SignalingService * World :=
  match ops with
  | [] => (s, w)
  | op :: rest =>
      let r := perform op s w in run rest (this_of r) (world_of r)
  end.

End Client.

(** The world after [n] tracks were stopped. *)
Definition stopped (ts : list string) (w : World) : World :=
  fold_left (fun v _ => record_call TrackStop v) ts w.

(** The world after [close()]. *)
Definition closed_world (c : WebRTC.WebRTCConnection) (w : World) : World :=
  let w1 := match WebRTC.localStream c with
            | Some s => stopped (Platform.tracks s) w
            | None => w
            end in
  match WebRTC.peerConnection c with
  | Some _ => record_call PeerConnectionClose w1
  | None => w1
  end.

(** The backend stops answering this tab. *)
Definition go_offline : World -> World :=
  on_browser (fun b =>
    {| console := console b; mic_granted := mic_granted b;
       online := false; sdp_blob := sdp_blob b;
       subscriptions := subscriptions b; trace := trace b |}).

(** An action that leaves the peer identifier alone. *)
Definition keeps_peer {A : Type} (m : M Signaling.SignalingService A) : Prop :=
  forall s w, Signaling.peerId (this_of (m s w)) = Signaling.peerId s.

(** The connection object after it accepted the candidates [cs]. *)
Definition with_candidates (cs : list string)
  (pc : Platform.RTCPeerConnection) : Platform.RTCPeerConnection :=
  {| Platform.signalingState := Platform.signalingState pc;
     Platform.localDescription := Platform.localDescription pc;
     Platform.remoteDescription := Platform.remoteDescription pc;
     Platform.senders := Platform.senders pc;
     Platform.remoteCandidates := Platform.remoteCandidates pc ++ cs |}.

(** The same message under another payload. *)
Definition with_data (d : SignalData) (m : SignalMessage) : SignalMessage :=
  {| room_id := room_id m; peer_id := peer_id m;
     target_peer_id := target_peer_id m; signal_type := signal_type m;
     signal_data := d |}.

(** ** Events of a session *)

Module Events.

(** [peerConnection.onicecandidate] as [initialize] sets it, with the
    callback the controller registered: the browser hands over each local
    candidate, and [null] when it has no more.  A connection object without
    peer connection gets no event. *)
Definition icecandidate_event (candidate : option SignalData)
  : M App.ClickToTalkApp unit :=
  this <- get_this ;;
  match App.webrtc this with
  | Some c =>
      match WebRTC.peerConnection c, candidate,
            WebRTC.onIceCandidateCallback c with
      | Some _, Some cand, Some WebRTC.SendIceCandidate =>
          App.on_ice_candidate cand
      | _, _, _ => ret tt
      end
  | None => ret tt
  end.

(** What can happen to a session: the two buttons, a broadcast on a
    channel it listens on, a local candidate. *)
Inductive Event : Type :=
| JoinClick (roomName : string)
| LeaveClick
| Broadcasted (payload : SignalMessage)
| LocalCandidate (candidate : option SignalData).

Definition step (e : Event) : M App.ClickToTalkApp unit :=
  match e with
  | JoinClick roomName => App.joinRoom roomName
  | LeaveClick => App.leaveRoom
  | Broadcasted payload => App.on_broadcast payload
  | LocalCandidate candidate => icecandidate_event candidate
  end.

Fixpoint run (es : list Event) (a : App.ClickToTalkApp) (w : World)
  : App.ClickToTalkApp * World :=
  match es with
  | [] => (a, w)
  | e :: rest => let r := step e a w in run rest (this_of r) (world_of r)
  end.

(** How often a call occurs in a trace. *)
Definition is_getUserMedia (c : Call) : bool :=
  match c with GetUserMedia => true | _ => false end.

Definition is_trackStop (c : Call) : bool :=
  match c with TrackStop => true | _ => false end.

Definition count (f : Call -> bool) (tr : list Call) : nat :=
  length (filter f tr).

(** Tracks of the microphone stream the session holds. *)
Definition held (a : App.ClickToTalkApp) : nat :=
  match App.webrtc a with
  | Some c =>
      match WebRTC.localStream c with
      | Some s => length (Platform.tracks s)
      | None => 0
      end
  | None => 0
  end.

End Events.

(** The same message under another address. *)
Definition with_address (room : string) (to : option string)
  (m : SignalMessage) : SignalMessage :=
  {| room_id := room; peer_id := peer_id m; target_peer_id := to;
     signal_type := signal_type m; signal_data := signal_data m |}.

(** The message [sendSignal] builds. *)
Definition stamped (s : Signaling.SignalingService) (rid : string)
  (kind : SignalType) (data : SignalData) (to : option string)
  : SignalMessage :=
  {| room_id := rid; peer_id := Signaling.peerId s; target_peer_id := to;
     signal_type := kind; signal_data := data |}.

(** A tab that has just been opened, in front of an empty backend. *)
Definition fresh_world (mic net : bool) : World :=
  {| browser := fresh_browser mic net "sdp";
     backend := {| rooms := []; signaling_table := []; wire := [] |} |}.

(** The channel a service holds is the one of the room it is bound to. *)
Definition channel_follows_room (s : Signaling.SignalingService) : Prop :=
  Signaling.channel s
  = option_map (fun r => Signaling.topic_of (Some r)) (Signaling.roomId s).

(** ** What a session keeps *)

(** What matters of the world for the microphone: whether it is granted,
    how often it was asked for, how many tracks were stopped. *)
Definition census (w : World) : bool * nat * nat :=
  (mic_granted (browser w),
   Events.count Events.is_getUserMedia (trace (browser w)),
   Events.count Events.is_trackStop (trace (browser w))).

(** A connection object holds no stream or the microphone's. *)
Definition stream_ok (a : App.ClickToTalkApp) : Prop :=
  match App.webrtc a with
  | Some c =>
      WebRTC.localStream c = None
      \/ WebRTC.localStream c = Some Platform.microphone
  | None => True
  end.

(** A connection object is held exactly while a peer is bound, and the
    bound peer is not the session itself. *)
Definition paired (a : App.ClickToTalkApp) : Prop :=
  is_some (App.webrtc a) = is_some (App.remotePeerId a)
  /\ App.remotePeerId a <> Some (Signaling.peerId (App.signaling a))
  /\ stream_ok a.

(** Every stream that was taken and is not held has been stopped. *)
Definition balanced (a : App.ClickToTalkApp) (w : World) : Prop :=
  fst (fst (census w)) = true ->
  snd (fst (census w)) = snd (census w) + Events.held a.

(** The five calls on the peer connection replace the connection's peer
    connection at most. *)
Definition pc_only {A : Type} (m : M WebRTC.WebRTCConnection A) : Prop :=
  forall c w,
    exists o pc',
      m c w = (o, WebRTC.set_peerConnection pc' c, w).
(** * Properties *)

(** ** Evaluating method bodies *)

Lemma peer_truthy (rnd : string) :
  (Signaling.generatePeerId rnd =? "") = false.
Proof. reflexivity. Qed.

Lemma peer_eqb (ra rb : string) :
  (Signaling.generatePeerId ra =? Signaling.generatePeerId rb) = (ra =? rb).
Proof. reflexivity. Qed.

Lemma fresh_truthy (nm : string) (rs : list Room) :
  (id (fresh_room nm rs) =? "") = false.
Proof. reflexivity. Qed.

Lemma fresh_name (nm : string) (rs : list Room) :
  name (fresh_room nm rs) = nm.
Proof. reflexivity. Qed.

(** Unfold the monad and the model, but keep the tests on strings the
    hypotheses speak about; then decide those tests from the context. *)
Ltac js_step :=
  cbv -[String.eqb String.append Signaling.generatePeerId Signaling.topic_of
        filter tally length List.app id name fresh_room existsb Relay.pump];
  cbn [List.app existsb];
  rewrite ?filter_app;
  cbn [filter];
  rewrite ?peer_truthy, ?peer_eqb, ?fresh_truthy, ?fresh_name,
    ?String.eqb_refl;
  repeat match goal with
  | H : (_ =? _) = _ |- _ => rewrite H
  | H : filter _ _ = _ |- _ => rewrite H
  end.

Ltac js_eval := repeat (progress js_step).

(** Decide the tests that are left by cases. *)
Ltac by_cases :=
  repeat (js_eval;
          match goal with
          | |- context [match ?x with _ => _ end] =>
              is_var x; destruct x
          | |- context [if ?b then _ else _] => destruct b eqn:?
          | |- context [match ?x with _ => _ end] => destruct x eqn:?
          end).

(** ** WebRTCConnection *)

Lemma stop_tracks_eq (ts : list string) (c : WebRTC.WebRTCConnection)
  (w : World) :
  WebRTC.stop_tracks ts c w = (Returned tt, c, stopped ts w).
Proof.
  revert w. induction ts as [|t ts IH]; intro w; [reflexivity|].
  cbn [WebRTC.stop_tracks]. unfold bind at 1. cbn [external modify_world].
  rewrite IH. reflexivity.
Qed.

Lemma close_eq (c : WebRTC.WebRTCConnection) (w : World) :
  WebRTC.close c w =
  (Returned tt,
   WebRTC.set_peerConnection None
     (WebRTC.set_remoteStream None (WebRTC.set_localStream None c)),
   closed_world c w).
Proof.
  unfold WebRTC.close, closed_world.
  destruct c as [pc ls rs cb1 cb2].
  unfold bind at 1. cbn [get_this WebRTC.localStream WebRTC.peerConnection].
  unfold bind at 1.
  destruct ls as [s|].
  - rewrite stop_tracks_eq. destruct pc; reflexivity.
  - destruct pc; reflexivity.
Qed.

(** C9.  Each of createOffer, createAnswer, handleOffer, handleAnswer and
    addIceCandidate throws 'Peer connection not initialized' on a
    connection whose peerConnection is null: a new one, one whose
    initialize() threw, one that was closed.  close() never throws, leaves
    localStream, remoteStream and peerConnection null, and a second close()
    changes nothing and calls nothing. *)
Theorem uninitialized_connection_guards :
  forall (c : WebRTC.WebRTCConnection) (w : World) (d : SignalData),
    (WebRTC.peerConnection c = None ->
       WebRTC.createOffer c w = (Thrown WebRTC.not_initialized, c, w)
       /\ WebRTC.createAnswer c w = (Thrown WebRTC.not_initialized, c, w)
       /\ WebRTC.handleOffer d c w = (Thrown WebRTC.not_initialized, c, w)
       /\ WebRTC.handleAnswer d c w = (Thrown WebRTC.not_initialized, c, w)
       /\ WebRTC.addIceCandidate d c w
          = (Thrown WebRTC.not_initialized, c, w))
    /\ WebRTC.not_initialized = JsError "Peer connection not initialized"
    /\ WebRTC.peerConnection WebRTC.new_WebRTCConnection = None
    /\ (WebRTC.peerConnection c = None ->
        returns (outcome_of (WebRTC.initialize c w)) = false ->
        WebRTC.peerConnection (this_of (WebRTC.initialize c w)) = None)
    /\ outcome_of (WebRTC.close c w) = Returned tt
    /\ WebRTC.localStream (this_of (WebRTC.close c w)) = None
    /\ WebRTC.remoteStream (this_of (WebRTC.close c w)) = None
    /\ WebRTC.peerConnection (this_of (WebRTC.close c w)) = None
    /\ WebRTC.close (this_of (WebRTC.close c w)) (world_of (WebRTC.close c w))
       = (Returned tt, this_of (WebRTC.close c w),
          world_of (WebRTC.close c w)).
Proof.
  intros c w d. rewrite close_eq.
  split; [|split; [|split; [|split]]].
  - intros Hpc.
    unfold WebRTC.createOffer, WebRTC.createAnswer, WebRTC.handleOffer,
      WebRTC.handleAnswer, WebRTC.addIceCandidate, bind, get_this.
    rewrite Hpc. repeat split.
  - reflexivity.
  - reflexivity.
  - destruct c as [pc ls rs cb1 cb2]. cbn [WebRTC.peerConnection].
    intros ->. destruct w as [[co mic on blob subs tr] be].
    destruct mic; cbn; [discriminate | reflexivity].
  - cbn [this_of world_of outcome_of fst snd]. rewrite close_eq.
    repeat split.
Qed.

(** C9, witness: a new connection in a tab that was just opened. *)
Lemma uninitialized_connection_guards_witness :
  WebRTC.createOffer WebRTC.new_WebRTCConnection
    {| browser := fresh_browser false true "sdp";
       backend := {| rooms := []; signaling_table := []; wire := [] |} |}
  = (Thrown (JsError "Peer connection not initialized"),
     WebRTC.new_WebRTCConnection,
     {| browser := fresh_browser false true "sdp";
        backend := {| rooms := []; signaling_table := []; wire := [] |} |})
  /\ WebRTC.peerConnection
       (this_of (WebRTC.initialize WebRTC.new_WebRTCConnection
          {| browser := fresh_browser false true "sdp";
             backend := {| rooms := []; signaling_table := [];
                           wire := [] |} |})) = None.
Proof.
  pose proof (uninitialized_connection_guards WebRTC.new_WebRTCConnection
    {| browser := fresh_browser false true "sdp";
       backend := {| rooms := []; signaling_table := []; wire := [] |} |}
    EmptyObject) as [H1 [_ [_ [H2 _]]]].
  split.
  - exact (proj1 (H1 eq_refl)).
  - exact (H2 eq_refl eq_refl).
Defined.

(** ** SignalingService *)

Section PeerIdentity.

Import Signaling.

Lemma keeps_bind {A B : Type} (m : M SignalingService A)
  (k : A -> M SignalingService B) :
  keeps_peer m -> (forall a, keeps_peer (k a)) -> keeps_peer (bind m k).
Proof.
  intros Hm Hk s w. unfold bind. specialize (Hm s w).
  destruct (m s w) as [[o s'] w']. cbn [this_of fst snd] in Hm.
  destruct o as [a|e]; [|exact Hm].
  rewrite Hk. exact Hm.
Qed.

Lemma keeps_ret {A : Type} (a : A) : keeps_peer (ret a).
Proof. intros s w. reflexivity. Qed.

Lemma keeps_throw {A : Type} (e : Error) : keeps_peer (@throw _ A e).
Proof. intros s w. reflexivity. Qed.

Lemma keeps_get_this : keeps_peer get_this.
Proof. intros s w. reflexivity. Qed.

Lemma keeps_get_world : keeps_peer get_world.
Proof. intros s w. reflexivity. Qed.

Lemma keeps_modify_world (f : World -> World) : keeps_peer (modify_world f).
Proof. intros s w. reflexivity. Qed.

Lemma keeps_modify_this (f : SignalingService -> SignalingService) :
  (forall s, peerId (f s) = peerId s) -> keeps_peer (modify_this f).
Proof. intros Hf s w. apply Hf. Qed.

Lemma keeps_if {A : Type} (b : bool) (m1 m2 : M SignalingService A) :
  keeps_peer m1 -> keeps_peer m2 -> keeps_peer (if b then m1 else m2).
Proof. destruct b; auto. Qed.

Create HintDb keeps discriminated.

Hint Resolve keeps_ret keeps_throw keeps_get_this keeps_get_world
  keeps_modify_world keeps_if : keeps.

Ltac keeps :=
  repeat first
    [ apply keeps_bind; [|intro]
    | apply keeps_modify_this; intros []; reflexivity
    | solve [auto with keeps]
    | match goal with
      | |- keeps_peer (match ?x with _ => _ end) => destruct x
      end ].

Lemma keeps_sendSignal k d t : keeps_peer (sendSignal k d t).
Proof.
  unfold sendSignal, insert_signal, channel_send, external. keeps.
Qed.

Lemma keeps_joinRoom n : keeps_peer (joinRoom n).
Proof.
  unfold joinRoom, select_room, insert_room, channel_subscribe, external.
  keeps; apply keeps_sendSignal.
Qed.

Lemma keeps_onMessage cb : keeps_peer (onMessage cb).
Proof. unfold onMessage. keeps. Qed.

Lemma keeps_getPeerId : keeps_peer getPeerId.
Proof. unfold getPeerId. keeps. Qed.

Lemma keeps_leave : keeps_peer leave.
Proof.
  unfold leave, channel_unsubscribe, external.
  keeps; apply keeps_sendSignal.
Qed.

Lemma keeps_perform op : keeps_peer (Client.perform op).
Proof.
  destruct op; cbn [Client.perform];
    auto using keeps_sendSignal, keeps_onMessage, keeps_leave.
  - apply keeps_bind; [apply keeps_joinRoom | intro; apply keeps_ret].
  - apply keeps_bind; [apply keeps_getPeerId | intro; apply keeps_ret].
Qed.

Lemma run_keeps_peer ops : forall s w,
  peerId (fst (Client.run ops s w)) = peerId s.
Proof.
  induction ops as [|op ops IH]; intros s w; [reflexivity|].
  cbn [Client.run]. rewrite IH. apply keeps_perform.
Qed.

(** What [leave()] returns and leaves in [this], whatever the world. *)
Lemma leave_this (s : SignalingService) (w : World) :
  outcome_of (leave s w) = Returned tt
  /\ this_of (leave s w)
     = {| roomId := None; peerId := peerId s; channel := None;
          onMessageCallback := onMessageCallback s |}.
Proof.
  destruct s as [[r|] p [t|] cb], w as [[co mic [|] blob subs tr] be];
    try destruct (r =? "") eqn:E; js_eval; split; reflexivity.
Qed.

(** The calls [leave()] makes for a service that sits in a room. *)
Lemma leave_trace (s : SignalingService) (w : World) (rid topic : string) :
  roomId s = Some rid -> rid <> "" -> channel s = Some topic ->
  trace (browser (world_of (leave s w)))
  = trace (browser w)
      ++ [InsertSignal (Scenario.signal rid (peerId s) None SigLeave
                          EmptyObject);
          Broadcast topic (Scenario.signal rid (peerId s) None SigLeave
                             EmptyObject);
          Unsubscribe topic]
  /\ subscriptions (browser (world_of (leave s w)))
     = filter (fun t => negb (t =? topic)) (subscriptions (browser w)).
Proof.
  destruct s as [r p t cb], w as [[co mic on blob subs tr] be].
  cbn [roomId channel peerId]. intros -> Hne ->.
  apply String.eqb_neq in Hne. unfold Scenario.signal.
  destruct on; js_eval; (split; [rewrite <- !app_assoc|]; reflexivity).
Qed.

Lemma leave_idle (s : SignalingService) (w : World) :
  roomId s = None -> channel s = None -> leave s w = (Returned tt, s, w).
Proof.
  destruct s as [r p t cb]. cbn [roomId channel]. intros -> ->. reflexivity.
Qed.

End PeerIdentity.

(** C10.  leave() writes only roomId and channel; the peer identifier is
    the one the constructor generated, and getPeerId() returns it before
    joining, after leave() and after any later joinRoom() or other call on
    the same instance. *)
Theorem peer_id_generated_once :
  forall (rnd roomName : string) (s : Signaling.SignalingService)
         (w : World) (ops : list Client.Op),
    Signaling.peerId (Signaling.constructor rnd)
      = Signaling.generatePeerId rnd
    /\ Signaling.getPeerId s w = (Returned (Signaling.peerId s), s, w)
    /\ this_of (Signaling.leave s w)
       = Signaling.set_roomId None (Signaling.set_channel None s)
    /\ Signaling.peerId (this_of (Signaling.leave s w)) = Signaling.peerId s
    /\ Signaling.onMessageCallback (this_of (Signaling.leave s w))
       = Signaling.onMessageCallback s
    /\ Signaling.peerId (this_of (Signaling.joinRoom roomName s w))
       = Signaling.peerId s
    /\ Signaling.peerId
         (this_of (Signaling.joinRoom roomName
                     (this_of (Signaling.leave s w))
                     (world_of (Signaling.leave s w))))
       = Signaling.peerId s
    /\ outcome_of
         (Signaling.getPeerId (fst (Client.run ops s w))
            (snd (Client.run ops s w)))
       = Returned (Signaling.peerId s).
Proof.
  intros rnd roomName s w ops.
  destruct (leave_this s w) as [_ Hthis].
  repeat split.
  - rewrite Hthis. reflexivity.
  - apply keeps_leave.
  - rewrite Hthis. reflexivity.
  - apply keeps_joinRoom.
  - rewrite keeps_joinRoom. apply keeps_leave.
  - cbn. rewrite run_keeps_peer. reflexivity.
Qed.

(** C7.  The first leave() of a service that sits in a room inserts and
    broadcasts one `leave` message and unsubscribes once.  A second
    leave() is a no-op: it returns without changing the service and
    without touching the world, so no second `leave` message is inserted
    or broadcast and nothing is unsubscribed again. *)
Theorem leave_twice_is_leave_once :
  forall (s : Signaling.SignalingService) (w : World),
    Signaling.leave (this_of (Signaling.leave s w))
      (world_of (Signaling.leave s w))
    = (Returned tt, this_of (Signaling.leave s w),
       world_of (Signaling.leave s w))
    /\ (forall rid topic,
          Signaling.roomId s = Some rid -> rid <> "" ->
          Signaling.channel s = Some topic ->
          trace (browser (world_of (Signaling.leave s w)))
          = trace (browser w)
              ++ [InsertSignal
                    (Scenario.signal rid (Signaling.peerId s) None SigLeave
                       EmptyObject);
                  Broadcast topic
                    (Scenario.signal rid (Signaling.peerId s) None SigLeave
                       EmptyObject);
                  Unsubscribe topic]).
Proof.
  intros s w. destruct (leave_this s w) as [_ Hthis]. split.
  - apply leave_idle; rewrite Hthis; reflexivity.
  - intros rid topic Hr Hne Ht.
    exact (proj1 (leave_trace s w rid topic Hr Hne Ht)).
Qed.

(** C7, witness: tab [A] alone in room "demo" leaves. *)
Lemma leave_twice_is_leave_once_witness :
  let s := App.signaling (Relay.app (Relay.tabA (Scenario.demo_waiting true))) in
  let w := Scenario.world_at Relay.A (Scenario.demo_waiting true) in
  Signaling.roomId s = Some "room-"
  /\ Signaling.channel s = Some "room:room-"
  /\ trace (browser (world_of (Signaling.leave s w)))
     = trace (browser w)
         ++ [InsertSignal
               (Scenario.signal "room-" (Signaling.peerId s) None SigLeave
                  EmptyObject);
             Broadcast "room:room-"
               (Scenario.signal "room-" (Signaling.peerId s) None SigLeave
                  EmptyObject);
             Unsubscribe "room:room-"].
Proof.
  cbv zeta.
  assert (H1 : Signaling.roomId
                 (App.signaling
                    (Relay.app (Relay.tabA (Scenario.demo_waiting true))))
               = Some "room-")
    by (vm_compute; reflexivity).
  assert (H2 : "room-" <> "") by discriminate.
  assert (H3 : Signaling.channel
                 (App.signaling
                    (Relay.app (Relay.tabA (Scenario.demo_waiting true))))
               = Some "room:room-")
    by (vm_compute; reflexivity).
  exact (conj H1 (conj H3
           (proj2 (leave_twice_is_leave_once
                     (App.signaling
                        (Relay.app (Relay.tabA (Scenario.demo_waiting true))))
                     (Scenario.world_at Relay.A (Scenario.demo_waiting true)))
              "room-" "room:room-" H1 H2 H3))).
Defined.

(** C8, as the code has it.  When the backend does not answer, leave()
    still returns normally, unsubscribes and clears roomId and channel;
    the failed publish reaches neither the table nor the relay, and
    nothing is written to the console. *)
Theorem leave_ignores_failed_publish :
  forall (s : Signaling.SignalingService) (w : World),
    online (browser w) = false ->
    outcome_of (Signaling.leave s w) = Returned tt
    /\ Signaling.roomId (this_of (Signaling.leave s w)) = None
    /\ Signaling.channel (this_of (Signaling.leave s w)) = None
    /\ backend (world_of (Signaling.leave s w)) = backend w
    /\ console (browser (world_of (Signaling.leave s w)))
       = console (browser w)
    /\ (forall rid topic,
          Signaling.roomId s = Some rid -> rid <> "" ->
          Signaling.channel s = Some topic ->
          let message :=
            Scenario.signal rid (Signaling.peerId s) None SigLeave
              EmptyObject in
          trace (browser (world_of (Signaling.leave s w)))
          = trace (browser w)
              ++ [InsertSignal message; Broadcast topic message;
                  Unsubscribe topic]
          /\ subscriptions (browser (world_of (Signaling.leave s w)))
             = filter (fun t => negb (t =? topic))
                 (subscriptions (browser w))).
Proof.
  intros s w Hoff. destruct (leave_this s w) as [Hret Hthis].
  split; [exact Hret|]. rewrite Hthis.
  split; [reflexivity|]. split; [reflexivity|].
  split; [|split].
  - destruct s as [[r|] p [t|] cb], w as [[co mic on blob subs tr] be];
      cbn [online browser] in Hoff; subst on;
      try destruct (r =? "") eqn:E; js_eval; reflexivity.
  - destruct s as [[r|] p [t|] cb], w as [[co mic on blob subs tr] be];
      cbn [online browser] in Hoff; subst on;
      try destruct (r =? "") eqn:E; js_eval; reflexivity.
  - intros rid topic Hr Hne Ht. cbv zeta.
    exact (leave_trace s w rid topic Hr Hne Ht).
Qed.

(** C8, witness: tab [A] alone in room "demo", the backend gone. *)
Lemma leave_ignores_failed_publish_witness :
  let s := App.signaling (Relay.app (Relay.tabA (Scenario.demo_waiting true))) in
  let w := go_offline (Scenario.world_at Relay.A (Scenario.demo_waiting true)) in
  online (browser w) = false
  /\ outcome_of (Signaling.leave s w) = Returned tt
  /\ Signaling.roomId (this_of (Signaling.leave s w)) = None
  /\ Signaling.channel (this_of (Signaling.leave s w)) = None.
Proof.
  cbv zeta. split; [reflexivity|].
  destruct (leave_ignores_failed_publish
              (App.signaling
                 (Relay.app (Relay.tabA (Scenario.demo_waiting true))))
              (go_offline
                 (Scenario.world_at Relay.A (Scenario.demo_waiting true)))
              eq_refl) as (H1 & H2 & H3 & _).
  exact (conj H1 (conj H2 H3)).
Defined.

(** C8, counterexample.  Tab [A] has joined room "demo" and the backend
    is gone: leave() attempts the insert and the broadcast, neither
    arrives, and the console stays empty: the failure is not logged. *)
Lemma failed_leave_publish_is_not_logged :
  let s := App.signaling (Relay.app (Relay.tabA (Scenario.demo_waiting true))) in
  let w := go_offline (Scenario.world_at Relay.A (Scenario.demo_waiting true)) in
  let message :=
    Scenario.signal Scenario.room_demo Scenario.peer_a None SigLeave
      EmptyObject in
  Signaling.roomId s = Some Scenario.room_demo
  /\ In (Broadcast "room:room-" message)
        (trace (browser (world_of (Signaling.leave s w))))
  /\ backend (world_of (Signaling.leave s w)) = backend w
  /\ console (browser (world_of (Signaling.leave s w))) = [].
Proof.
  cbv zeta.
  split; [vm_compute; reflexivity|].
  split; [vm_compute; auto 10|].
  split; vm_compute; reflexivity.
Qed.

(** ** ClickToTalkApp *)

(** X18.  A message of another kind than `offer` from a peer other than
    the bound one changes nothing. *)
Lemma stale_sender_ignored_unless_offer :
  forall (a : App.ClickToTalkApp) (w : World) (m : SignalMessage)
         (r : string),
    App.remotePeerId a = Some r -> r <> "" -> peer_id m <> r ->
    signal_type m <> SigOffer ->
    App.handleSignalMessage m a w = (Returned tt, a, w).
Proof.
  intros [rtc sg rp ini vw] w [rm from to kind data] r.
  cbn [App.remotePeerId peer_id signal_type]. intros -> Hr Hne Hk.
  apply String.eqb_neq in Hr. apply String.eqb_neq in Hne.
  destruct kind; try contradiction; destruct rtc; js_eval; reflexivity.
Qed.

(** An `offer` binds its sender and makes the session responder, whoever
    was bound before and whatever the payload is. *)
Lemma offer_binds_its_sender :
  forall (a : App.ClickToTalkApp) (w : World) (m : SignalMessage),
    signal_type m = SigOffer ->
    App.remotePeerId (this_of (App.handleSignalMessage m a w))
      = Some (peer_id m)
    /\ App.isInitiator (this_of (App.handleSignalMessage m a w)) = false.
Proof.
  intros [rtc sg rp ini vw] [[co mic on blob subs tr] be]
         [rm from to kind data].
  cbn [signal_type peer_id]. intros ->.
  by_cases; split; reflexivity.
Qed.

(** C3, at the failing input.  [A] is connected to [B] as initiator; an
    `offer` that `peer_ccc` addressed to a fourth peer arrives on the
    room's channel.  [A] rebinds to `peer_ccc`, turns responder, replaces
    the remote description of its engine and answers `peer_ccc`. *)
Theorem stray_offer_rebinds :
  let a := Relay.app (Relay.tabA Scenario.demo_connected) in
  let w := Scenario.world_at Relay.A Scenario.demo_connected in
  let m := Scenario.signal Scenario.room_demo Scenario.peer_c
             (Some "peer_ddd") SigOffer
             (SessionDescription SdpOffer "sdp-c") in
  let r := App.handleSignalMessage m a w in
  (App.remotePeerId a = Some Scenario.peer_b
   /\ App.role a = App.Initiator
   /\ option_map Platform.remoteDescription (Scenario.engine a)
      = Some (Some (SessionDescription SdpAnswer "sdp-b")))
  /\ App.remotePeerId (this_of r) = Some Scenario.peer_c
  /\ App.role (this_of r) = App.Responder
  /\ option_map Platform.remoteDescription (Scenario.engine (this_of r))
     = Some (Some (SessionDescription SdpOffer "sdp-c"))
  /\ wire (backend (world_of r))
     = [("room:room-",
         Scenario.signal Scenario.room_demo Scenario.peer_a
           (Some Scenario.peer_c) SigAnswer
           (SessionDescription SdpAnswer "sdp-a"))].
Proof.
  cbv zeta. repeat split; vm_compute; reflexivity.
Qed.

Lemma set_webrtc_same (a : App.ClickToTalkApp) (c : WebRTC.WebRTCConnection) :
  App.webrtc a = Some c -> App.set_webrtc (Some c) a = a.
Proof. destruct a. cbn. now intros ->. Qed.

Lemma set_peerConnection_same (c : WebRTC.WebRTCConnection)
  (pc : Platform.RTCPeerConnection) :
  WebRTC.peerConnection c = Some pc ->
  WebRTC.set_peerConnection (Some pc) c = c.
Proof. destruct c. cbn. now intros ->. Qed.

Lemma with_candidates_nil (pc : Platform.RTCPeerConnection) :
  with_candidates [] pc = pc.
Proof. destruct pc. unfold with_candidates. cbn. now rewrite app_nil_r. Qed.

(** One candidate from the bound peer, the remote description being set:
    the engine takes it. *)
Lemma candidate_accepted (a : App.ClickToTalkApp) (w : World)
  (c : WebRTC.WebRTCConnection) (pc : Platform.RTCPeerConnection)
  (r rid cand : string) (to : option string) :
  App.webrtc a = Some c -> WebRTC.peerConnection c = Some pc ->
  App.remotePeerId a = Some r ->
  Platform.remoteDescription pc <> None ->
  App.handleSignalMessage
    (Scenario.signal rid r to SigIceCandidate (IceCandidateInit cand)) a w
  = (Returned tt,
     App.set_webrtc
       (Some (WebRTC.set_peerConnection (Some (with_candidates [cand] pc)) c))
       a, w).
Proof.
  destruct a as [rtc sg rp ini vw], c as [opc ls rs cb1 cb2],
    pc as [st ld rd sn rc].
  cbn [App.webrtc WebRTC.peerConnection App.remotePeerId
       Platform.remoteDescription].
  intros -> -> -> Hrd. destruct rd as [d|]; [|contradiction].
  js_eval. reflexivity.
Qed.

(** One candidate from the bound peer, no remote description yet: the
    engine rejects it, the handler logs the rejection, and the session
    keeps no trace of the candidate. *)
Lemma candidate_rejected (a : App.ClickToTalkApp) (w : World)
  (c : WebRTC.WebRTCConnection) (pc : Platform.RTCPeerConnection)
  (r rid cand : string) (to : option string) :
  App.webrtc a = Some c -> WebRTC.peerConnection c = Some pc ->
  App.remotePeerId a = Some r ->
  Platform.remoteDescription pc = None ->
  App.handleSignalMessage
    (Scenario.signal rid r to SigIceCandidate (IceCandidateInit cand)) a w
  = (Returned tt, a,
     log_error "Error handling signal:" (DOMException "InvalidStateError") w).
Proof.
  destruct a as [rtc sg rp ini vw], c as [opc ls rs cb1 cb2],
    pc as [st ld rd sn rc].
  cbn [App.webrtc WebRTC.peerConnection App.remotePeerId
       Platform.remoteDescription].
  intros -> -> -> ->.
  js_eval. reflexivity.
Qed.

Lemma candidates_accepted (cs : list string) :
  forall (a : App.ClickToTalkApp) (w : World)
         (c : WebRTC.WebRTCConnection) (pc : Platform.RTCPeerConnection)
         (r rid : string),
    App.webrtc a = Some c -> WebRTC.peerConnection c = Some pc ->
    App.remotePeerId a = Some r ->
    Platform.remoteDescription pc <> None ->
    Scenario.handle_all (Scenario.candidates_from rid r cs) a w
    = (Returned tt,
       App.set_webrtc
         (Some (WebRTC.set_peerConnection (Some (with_candidates cs pc)) c))
         a, w).
Proof.
  induction cs as [|cand cs IH]; intros a w c pc r rid Ha Hc Hr Hrd.
  - cbn. rewrite with_candidates_nil, set_peerConnection_same by assumption.
    now rewrite set_webrtc_same.
  - cbn [Scenario.candidates_from map Scenario.handle_all].
    unfold bind at 1.
    change (App.handleSignalMessage
              {| room_id := rid; peer_id := r; target_peer_id := None;
                 signal_type := SigIceCandidate;
                 signal_data := IceCandidateInit cand |})
      with (App.handleSignalMessage
              (Scenario.signal rid r None SigIceCandidate
                 (IceCandidateInit cand))).
    rewrite candidate_accepted with (c := c) (pc := pc) by assumption.
    change (map _ cs) with (Scenario.candidates_from rid r cs).
    rewrite (IH _ w
               (WebRTC.set_peerConnection
                  (Some (with_candidates [cand] pc)) c)
               (with_candidates [cand] pc) r rid);
      try reflexivity; try assumption.
    unfold with_candidates, App.set_webrtc, WebRTC.set_peerConnection.
    cbn. rewrite <- app_assoc. reflexivity.
Qed.

(** C4, as the code has it.  A candidate from the bound peer goes to the
    engine the moment it is received.  Once the remote description is set,
    candidates are applied in the order received and none is dropped.
    Before that the engine rejects the candidate; the rejection is logged
    and the session is left exactly as it was: nothing is buffered for a
    later flush. *)
Theorem candidates_applied_on_receipt :
  forall (a : App.ClickToTalkApp) (w : World)
         (c : WebRTC.WebRTCConnection) (pc : Platform.RTCPeerConnection)
         (r rid : string) (cs : list string),
    App.webrtc a = Some c -> WebRTC.peerConnection c = Some pc ->
    App.remotePeerId a = Some r ->
    (Platform.remoteDescription pc <> None ->
       Scenario.handle_all (Scenario.candidates_from rid r cs) a w
       = (Returned tt,
          App.set_webrtc
            (Some (WebRTC.set_peerConnection
                     (Some (with_candidates cs pc)) c)) a, w))
    /\ (Platform.remoteDescription pc = None ->
        forall cand,
          App.handleSignalMessage
            (Scenario.signal rid r None SigIceCandidate
               (IceCandidateInit cand)) a w
          = (Returned tt, a,
             log_error "Error handling signal:"
               (DOMException "InvalidStateError") w)).
Proof.
  intros a w c pc r rid cs Ha Hc Hr. split.
  - intro Hrd. now apply candidates_accepted.
  - intros Hrd cand. now apply candidate_rejected with (c := c) (pc := pc).
Qed.

(** C4, witness: [A], connected to [B], receives two candidates. *)
Lemma candidates_applied_on_receipt_witness :
  let a := Relay.app (Relay.tabA Scenario.demo_connected) in
  let w := Scenario.world_at Relay.A Scenario.demo_connected in
  Scenario.handle_all
    (Scenario.candidates_from Scenario.room_demo Scenario.peer_b
       ["c1"; "c2"]) a w
  = (Returned tt,
     App.set_webrtc
       (Some (WebRTC.set_peerConnection
                (Some (with_candidates ["c1"; "c2"] (Scenario.pc_of a)))
                (Scenario.connection_of a))) a, w).
Proof.
  cbv zeta.
  assert (H1 : App.webrtc (Relay.app (Relay.tabA Scenario.demo_connected))
               = Some (Scenario.connection_of
                         (Relay.app (Relay.tabA Scenario.demo_connected))))
    by (vm_compute; reflexivity).
  assert (H2 : WebRTC.peerConnection
                 (Scenario.connection_of
                    (Relay.app (Relay.tabA Scenario.demo_connected)))
               = Some (Scenario.pc_of
                         (Relay.app (Relay.tabA Scenario.demo_connected))))
    by (vm_compute; reflexivity).
  assert (H3 : App.remotePeerId
                 (Relay.app (Relay.tabA Scenario.demo_connected))
               = Some Scenario.peer_b)
    by (vm_compute; reflexivity).
  assert (H4 : Platform.remoteDescription
                 (Scenario.pc_of
                    (Relay.app (Relay.tabA Scenario.demo_connected)))
               <> None)
    by (vm_compute; discriminate).
  exact (proj1 (candidates_applied_on_receipt
                  (Relay.app (Relay.tabA Scenario.demo_connected))
                  (Scenario.world_at Relay.A Scenario.demo_connected)
                  (Scenario.connection_of
                     (Relay.app (Relay.tabA Scenario.demo_connected)))
                  (Scenario.pc_of
                     (Relay.app (Relay.tabA Scenario.demo_connected)))
                  Scenario.peer_b Scenario.room_demo ["c1"; "c2"]
                  H1 H2 H3) H4).
Defined.

(** C4, counterexample.  [A] has sent its offer to [B] and no remote
    description is set.  A candidate from [B] arrives, then the answer
    of [B].  After the answer is applied the engine holds no remote
    candidate: the early one was rejected, logged and lost. *)
Lemma early_candidate_is_dropped :
  let a := Relay.app (Relay.tabA Scenario.demo_negotiating) in
  let w := Scenario.world_at Relay.A Scenario.demo_negotiating in
  let early :=
    Scenario.signal Scenario.room_demo Scenario.peer_b
      (Some Scenario.peer_a) SigIceCandidate (IceCandidateInit "c1") in
  let reply :=
    Scenario.signal Scenario.room_demo Scenario.peer_b
      (Some Scenario.peer_a) SigAnswer
      (SessionDescription SdpAnswer "sdp-b") in
  let r := Scenario.handle_all [early; reply] a w in
  (App.remotePeerId a = Some Scenario.peer_b
   /\ option_map Platform.remoteDescription (Scenario.engine a) = Some None)
  /\ option_map Platform.remoteDescription (Scenario.engine (this_of r))
     = Some (Some (SessionDescription SdpAnswer "sdp-b"))
  /\ option_map Platform.remoteCandidates (Scenario.engine (this_of r))
     = Some []
  /\ console (browser (world_of r))
     = [("Error handling signal:", DOMException "InvalidStateError")].
Proof.
  cbv zeta.
  split; [split; vm_compute; reflexivity|].
  split; [vm_compute; reflexivity|].
  split; vm_compute; reflexivity.
Qed.

(** The handler catches whatever its body throws. *)
Lemma handler_returns (m : SignalMessage) (a : App.ClickToTalkApp)
  (w : World) :
  outcome_of (App.handleSignalMessage m a w) = Returned tt.
Proof.
  unfold App.handleSignalMessage, try_catch.
  match goal with
  | |- outcome_of (match ?body with _ => _ end) = _ =>
      destruct body as [[[[]|e] a'] w']
  end; reflexivity.
Qed.

(** C5, as the code has it.  When getUserMedia is refused while a `join`
    or an `offer` opens a negotiation, initialize() logs and rethrows, the
    handler logs the error and returns normally; nothing is published and
    getUserMedia was called once.  The sender stays bound and the
    uninitialized connection object stays in place, so that the next
    message, whatever it is, makes no external call either. *)
Theorem media_failure_is_logged_not_reset :
  forall (a : App.ClickToTalkApp) (w : World) (m : SignalMessage),
    mic_granted (browser w) = false ->
    App.webrtc a = None ->
    (signal_type m = SigOffer
     \/ (signal_type m = SigJoin /\ truthy (App.remotePeerId a) = false)) ->
    let r := App.handleSignalMessage m a w in
    outcome_of r = Returned tt
    /\ console (browser (world_of r))
       = console (browser w)
           ++ [("Error initializing WebRTC:", DOMException "NotAllowedError");
               ("Error handling signal:", DOMException "NotAllowedError")]
    /\ trace (browser (world_of r)) = trace (browser w) ++ [GetUserMedia]
    /\ backend (world_of r) = backend w
    /\ App.remotePeerId (this_of r) = Some (peer_id m)
    /\ App.webrtc (this_of r) = Some WebRTC.new_WebRTCConnection
    /\ (forall m',
          trace (browser (world_of
                   (App.handleSignalMessage m' (this_of r) (world_of r))))
          = trace (browser (world_of r))).
Proof.
  intros [rtc sg rp ini vw] [[co mic on blob subs tr] be]
         [rm from to kind data].
  cbn [mic_granted browser App.webrtc signal_type App.remotePeerId].
  intros -> -> Hkind. cbv zeta.
  split; [apply handler_returns|].
  destruct Hkind as [->|[-> Hrp]].
  - js_eval. rewrite <- !app_assoc.
    repeat (split; [reflexivity|]).
    intros [rm' from' to' kind' data']. destruct kind'; by_cases; reflexivity.
  - destruct rp as [p|]; cbn [truthy] in Hrp;
      [apply negb_false_iff in Hrp|];
      js_eval; rewrite <- !app_assoc;
      repeat (split; [reflexivity|]);
      intros [rm' from' to' kind' data']; destruct kind'; by_cases;
      reflexivity.
Qed.

(** C5, witness: [A] waits alone in room "demo", its microphone is
    refused, and the `join` of [B] arrives. *)
Lemma media_failure_is_logged_not_reset_witness :
  let a := Relay.app (Relay.tabA (Scenario.demo_waiting false)) in
  let w := Scenario.world_at Relay.A (Scenario.demo_waiting false) in
  let m := Scenario.signal Scenario.room_demo Scenario.peer_b None SigJoin
             EmptyObject in
  mic_granted (browser w) = false
  /\ App.webrtc a = None
  /\ backend (world_of (App.handleSignalMessage m a w)) = backend w
  /\ App.remotePeerId (this_of (App.handleSignalMessage m a w))
     = Some (peer_id m).
Proof.
  cbv zeta.
  assert (H1 : mic_granted
                 (browser (Scenario.world_at Relay.A
                             (Scenario.demo_waiting false))) = false)
    by (vm_compute; reflexivity).
  assert (H2 : App.webrtc
                 (Relay.app (Relay.tabA (Scenario.demo_waiting false)))
               = None)
    by (vm_compute; reflexivity).
  assert (H3 : truthy
                 (App.remotePeerId
                    (Relay.app (Relay.tabA (Scenario.demo_waiting false))))
               = false)
    by (vm_compute; reflexivity).
  destruct (media_failure_is_logged_not_reset
              (Relay.app (Relay.tabA (Scenario.demo_waiting false)))
              (Scenario.world_at Relay.A (Scenario.demo_waiting false))
              (Scenario.signal Scenario.room_demo Scenario.peer_b None
                 SigJoin EmptyObject)
              H1 H2 (or_intror (conj eq_refl H3)))
    as (_ & _ & _ & Hb & Hp & _).
  exact (conj H1 (conj H2 (conj Hb Hp))).
Defined.

(** C5, counterexample.  [A] waits alone in room "demo" with its
    microphone refused.  After the `join` of [B] has been handled, [A] is
    not idle: [B] is bound, the connection object is still referenced, the
    page shows `connected`, and the handler returned normally. *)
Lemma refused_microphone_leaves_peer_bound :
  let a := Relay.app (Relay.tabA (Scenario.demo_waiting false)) in
  let w := Scenario.world_at Relay.A (Scenario.demo_waiting false) in
  let m := Scenario.signal Scenario.room_demo Scenario.peer_b None SigJoin
             EmptyObject in
  let r := App.handleSignalMessage m a w in
  (App.remotePeerId a = None /\ App.webrtc a = None)
  /\ outcome_of r = Returned tt
  /\ App.remotePeerId (this_of r) = Some Scenario.peer_b
  /\ App.webrtc (this_of r) = Some WebRTC.new_WebRTCConnection
  /\ App.statusClass (App.view (this_of r)) = App.connected.
Proof.
  cbv zeta.
  split; [split; vm_compute; reflexivity|].
  split; [vm_compute; reflexivity|].
  split; [vm_compute; reflexivity|].
  split; vm_compute; reflexivity.
Qed.

(** C6, as the code has it.  The handler never throws.  It does not look
    at the payload before it acts: `join` and `leave` never read it, and an
    `offer` binds its sender and makes the session responder before the
    payload reaches the engine.  An `offer` whose payload is no session
    description ends in a logged error with nothing published and the
    status line untouched.  An `answer` whose payload is no session
    description, or an `ice-candidate` whose payload is no candidate,
    leaves the session as it was. *)
Theorem malformed_payload_is_caught_not_screened :
  forall (a : App.ClickToTalkApp) (w : World) (m : SignalMessage),
    let r := App.handleSignalMessage m a w in
    outcome_of r = Returned tt
    /\ (signal_type m = SigJoin \/ signal_type m = SigLeave ->
        forall d, App.handleSignalMessage (with_data d m) a w = r)
    /\ (signal_type m = SigOffer ->
        App.remotePeerId (this_of r) = Some (peer_id m)
        /\ App.isInitiator (this_of r) = false)
    /\ (signal_type m = SigOffer -> is_description (signal_data m) = false ->
        backend (world_of r) = backend w
        /\ App.view (this_of r) = App.view a
        /\ exists extra e,
             console (browser (world_of r))
             = console (browser w) ++ extra
                 ++ [("Error handling signal:", e)])
    /\ (signal_type m = SigAnswer -> is_description (signal_data m) = false ->
        this_of r = a /\ backend (world_of r) = backend w
        /\ trace (browser (world_of r)) = trace (browser w))
    /\ (signal_type m = SigIceCandidate ->
        is_candidate (signal_data m) = false ->
        this_of r = a /\ backend (world_of r) = backend w
        /\ trace (browser (world_of r)) = trace (browser w)).
Proof.
  intros a w m. cbv zeta.
  split; [apply handler_returns|].
  destruct m as [rm from to kind data].
  cbn [signal_type signal_data peer_id].
  split; [|split; [|split; [|split]]].
  - intros [->| ->] d; reflexivity.
  - intros Hk.
    exact (offer_binds_its_sender a w
             {| room_id := rm; peer_id := from; target_peer_id := to;
                signal_type := kind; signal_data := data |} Hk).
  - intros -> Hd.
    destruct a as [rtc sg rp ini vw], w as [[co mic on blob subs tr] be].
    destruct data; try discriminate Hd;
      by_cases;
      (split; [reflexivity | split; [reflexivity|]]);
      cbn [console browser];
      first [ exists [], (TypeError "not a session description");
              reflexivity
            | exists [], WebRTC.not_initialized; reflexivity
            | exists [("Error initializing WebRTC:",
                       DOMException "NotAllowedError")],
                (DOMException "NotAllowedError");
              rewrite <- !app_assoc; reflexivity ].
  - intros -> Hd.
    destruct a as [rtc sg rp ini vw], w as [[co mic on blob subs tr] be].
    destruct data; try discriminate Hd; by_cases; repeat split.
  - intros -> Hd.
    destruct a as [rtc sg rp ini vw], w as [[co mic on blob subs tr] be].
    destruct data; try discriminate Hd; by_cases; repeat split.
Qed.

(** C6, witness: [A] waits alone in room "demo" and an `offer` with an
    empty payload arrives from [B]. *)
Lemma malformed_payload_is_caught_not_screened_witness :
  let a := Relay.app (Relay.tabA (Scenario.demo_waiting true)) in
  let w := Scenario.world_at Relay.A (Scenario.demo_waiting true) in
  let m := Scenario.signal Scenario.room_demo Scenario.peer_b
             (Some Scenario.peer_a) SigOffer EmptyObject in
  (App.remotePeerId (this_of (App.handleSignalMessage m a w))
   = Some (peer_id m)
   /\ App.isInitiator (this_of (App.handleSignalMessage m a w)) = false)
  /\ backend (world_of (App.handleSignalMessage m a w)) = backend w.
Proof.
  cbv zeta.
  destruct (malformed_payload_is_caught_not_screened
              (Relay.app (Relay.tabA (Scenario.demo_waiting true)))
              (Scenario.world_at Relay.A (Scenario.demo_waiting true))
              (Scenario.signal Scenario.room_demo Scenario.peer_b
                 (Some Scenario.peer_a) SigOffer EmptyObject))
    as (_ & _ & Hbind & Hbad & _).
  exact (conj (Hbind eq_refl) (proj1 (Hbad eq_refl eq_refl))).
Defined.

(** C6, counterexample.  [A] waits alone in room "demo", unbound and
    without engine.  An `offer` whose payload is the empty object arrives
    from [B].  The payload has not the shape of an offer, yet [A] binds
    [B], takes the microphone and keeps an initialized engine; the
    engine's rejection of the payload is logged afterwards. *)
Lemma malformed_offer_binds_its_sender :
  let a := Relay.app (Relay.tabA (Scenario.demo_waiting true)) in
  let w := Scenario.world_at Relay.A (Scenario.demo_waiting true) in
  let m := Scenario.signal Scenario.room_demo Scenario.peer_b
             (Some Scenario.peer_a) SigOffer EmptyObject in
  let r := App.handleSignalMessage m a w in
  (well_shaped (signal_type m) (signal_data m) = false
   /\ App.remotePeerId a = None /\ App.webrtc a = None)
  /\ App.remotePeerId (this_of r) = Some Scenario.peer_b
  /\ Scenario.engine (this_of r)
     = Some (WebRTC.add_tracks Platform.microphone
               Platform.new_RTCPeerConnection)
  /\ In GetUserMedia (trace (browser (world_of r)))
  /\ console (browser (world_of r))
     = [("Error handling signal:", TypeError "not a session description")].
Proof.
  cbv zeta.
  split; [split; [|split]; vm_compute; reflexivity|].
  split; [vm_compute; reflexivity|].
  split; [vm_compute; reflexivity|].
  split; [vm_compute; auto 10|].
  vm_compute; reflexivity.
Qed.

(** ** Two sessions in one room *)

Lemma pump_O (s : Relay.System) : Relay.pump 0 s = s.
Proof. reflexivity. Qed.

Lemma pump_S (n : nat) (s : Relay.System) :
  Relay.pump (S n) s =
  match wire (Relay.cloud s) with
  | [] => s
  | (topic, m) :: _ =>
      Relay.pump n
        (Relay.deliver Relay.B topic m
           (Relay.deliver Relay.A topic m (Relay.pop_wire s)))
  end.
Proof. reflexivity. Qed.

Lemma pump_quiet (n : nat) (s : Relay.System) :
  wire (Relay.cloud s) = [] -> Relay.pump n s = s.
Proof. destruct n; cbn; intros H; [|rewrite H]; reflexivity. Qed.

Lemma pump_add (n m : nat) : forall s,
  Relay.pump (n + m) s = Relay.pump m (Relay.pump n s).
Proof.
  induction n as [|n IH]; intro s; [reflexivity|].
  cbn [Nat.add]. rewrite !pump_S.
  destruct (wire (Relay.cloud s)) as [|[topic msg] rest] eqn:E.
  - now rewrite pump_quiet.
  - apply IH.
Qed.

(** The scenario is run one event at a time, innermost first, so that
    every handler starts from a state that is written out. *)
Ltac settled s :=
  lazymatch s with
  | context [Relay.act] => fail
  | context [Relay.pump] => fail
  | context [Relay.deliver] => fail
  | _ => idtac
  end.

Ltac run_act :=
  match goal with
  | |- context [Relay.act ?p ?m ?s] =>
      settled s;
      let E := fresh "E" in
      eassert (E : Relay.act p m s = _) by (js_eval; reflexivity);
      rewrite E; clear E
  end.

Ltac run_deliver p :=
  match goal with
  | |- context [Relay.deliver p ?t ?m ?s] =>
      settled s;
      let E := fresh "E" in
      eassert (E : Relay.deliver p t m s = _) by (js_eval; reflexivity);
      rewrite E; clear E
  end.

Ltac run_pump :=
  match goal with
  | |- context [Relay.pump (S ?n) ?s] =>
      settled s; rewrite (pump_S n s);
      cbn [wire Relay.cloud Relay.pop_wire tl Relay.tabA Relay.tabB rooms
           signaling_table];
      run_deliver Relay.A; run_deliver Relay.B
  end.

Ltac end_pump :=
  match goal with
  | |- context [Relay.pump ?n ?s] =>
      settled s; rewrite (pump_quiet n s) by reflexivity
  end.

(** C1, counterexample.  Tabs [A] and [B] both join room "demo" before
    the relay has passed anything on, so each of them listens when the
    `join` of the other is handed out.  After the two `join`s both are
    initiator; each then gets the `offer` of the other and turns
    responder, and when the relay is quiet both are responder.  And when
    [A] joins first with its microphone refused and [B] joins once the
    relay is quiet, [A] ends as initiator and [B] bound to nobody. *)
Lemma overlapping_joins_leave_two_responders :
  let s := Relay.act Relay.B (App.joinRoom "demo")
             (Relay.act Relay.A (App.joinRoom "demo")
                (Scenario.demo_start true true)) in
  let t := Relay.meet 3 "demo" Relay.A (Scenario.demo_start false true) in
  (App.role (Relay.app (Relay.tabA (Relay.pump 2 s))) = App.Initiator
   /\ App.role (Relay.app (Relay.tabB (Relay.pump 2 s))) = App.Initiator)
  /\ (wire (Relay.cloud (Relay.pump 6 s)) = []
      /\ App.role (Relay.app (Relay.tabA (Relay.pump 6 s))) = App.Responder
      /\ App.role (Relay.app (Relay.tabB (Relay.pump 6 s))) = App.Responder)
  /\ (wire (Relay.cloud t) = []
      /\ App.role (Relay.app (Relay.tabA t)) = App.Initiator
      /\ App.role (Relay.app (Relay.tabB t)) = App.Unpaired).
Proof.
  cbv zeta.
  split; [split; vm_compute; reflexivity|].
  split; [split; [vm_compute; reflexivity|split; vm_compute; reflexivity]|].
  split; [vm_compute; reflexivity|split; vm_compute; reflexivity].
Qed.

(** C1, as the code has it.  Two sessions join the same room name one
    after the other, in either order: the second joins once the relay has
    handed out the `join` of the first and is quiet.  The relay then
    passes their signals on until it is quiet again.  With the microphone
    granted to the one that joined first, that one is initiator, the other
    is responder, and each is bound to the other.  The roles do not depend
    on the microphone of the second. *)
Theorem exactly_one_initiator :
  forall (first : Relay.Who) (ra rb blobA blobB roomName : string)
         (micA micB : bool)
         (rs : list Room) (tbl : list SignalMessage) (k : nat),
    ra <> rb -> roomName <> "" -> resolves_once roomName rs ->
    (match first with Relay.A => micA | Relay.B => micB end) = true ->
    let s := Relay.meet (3 + k) roomName first
               (Scenario.start ra rb (fresh_browser micA true blobA)
                  (fresh_browser micB true blobB) rs tbl) in
    App.role (Relay.app (Relay.tab first s)) = App.Initiator
    /\ App.role (Relay.app (Relay.tab (Relay.other first) s)) = App.Responder
    /\ App.remotePeerId (Relay.app (Relay.tab first s))
       = Some (Signaling.peerId
                 (App.signaling (Relay.app (Relay.tab (Relay.other first) s))))
    /\ App.remotePeerId (Relay.app (Relay.tab (Relay.other first) s))
       = Some (Signaling.peerId
                 (App.signaling (Relay.app (Relay.tab first s))))
    /\ wire (Relay.cloud s) = [].
Proof.
  intros first ra rb blobA blobB roomName micA micB rs tbl k
         Hab Hn Hrs Hmic s.
  apply String.eqb_neq in Hab, Hn.
  assert (Hba : (rb =? ra) = false) by (now rewrite String.eqb_sym).
  subst s. unfold Relay.meet, Scenario.start.
  change (3 + k) with (S (S (S k))).
  destruct Hrs as [Hf | [r [Hf Hid]]]; [|apply String.eqb_neq in Hid];
    destruct first; subst;
    [destruct micB | destruct micA | destruct micB | destruct micA];
    cbn [Relay.other];
    run_act; run_pump; end_pump; run_act; repeat run_pump;
    end_pump; repeat split.
Qed.

(** C1, witness: "bbb" joins room "demo" first, "aaa" second and without
    microphone. *)
Lemma exactly_one_initiator_witness :
  let s := Relay.meet (3 + 0) "demo" Relay.B
             (Scenario.start "aaa" "bbb" (fresh_browser false true "sdp-a")
                (fresh_browser true true "sdp-b") [] []) in
  App.role (Relay.app (Relay.tab Relay.B s)) = App.Initiator
  /\ App.role (Relay.app (Relay.tab (Relay.other Relay.B) s))
     = App.Responder.
Proof.
  cbv zeta.
  assert (H1 : "aaa" <> "bbb") by discriminate.
  assert (H2 : "demo" <> "") by discriminate.
  assert (H3 : resolves_once "demo" []) by (left; reflexivity).
  destruct (exactly_one_initiator Relay.B "aaa" "bbb" "sdp-a" "sdp-b"
              "demo" false true [] [] 0 H1 H2 H3 eq_refl) as (Hi & Hr & _).
  exact (conj Hi Hr).
Defined.

(** C2.  [A] and [B] sit idle in the same room and the `join` of [B] is
    on the wire.  Three deliveries follow: the `join` to [A], whose
    `offer` goes to [B], whose `answer` goes to [A].  Then the wire is
    empty, both pages show `connected`, and both engines are stable with
    the offer and the answer as their two descriptions. *)
Theorem offer_answer_round_trip :
  forall (ra rb blobA blobB roomName : string) (rs : list Room)
         (tbl : list SignalMessage),
    ra <> rb -> roomName <> "" -> resolves_once roomName rs ->
    let s0 := Scenario.in_room roomName
                (Scenario.start ra rb (fresh_browser true true blobA)
                   (fresh_browser true true blobB) rs tbl) in
    let pa := Signaling.generatePeerId ra in
    let pb := Signaling.generatePeerId rb in
    let offer := SessionDescription SdpOffer blobA in
    let answer := SessionDescription SdpAnswer blobB in
    let a3 := Relay.app (Relay.tabA (Relay.pump 3 s0)) in
    let b3 := Relay.app (Relay.tabB (Relay.pump 3 s0)) in
    exists rid,
      let topic := Signaling.topic_of (Some rid) in
      (App.role (Relay.app (Relay.tabA s0)) = App.Unpaired
       /\ App.role (Relay.app (Relay.tabB s0)) = App.Unpaired
       /\ Signaling.roomId (App.signaling (Relay.app (Relay.tabA s0)))
          = Some rid
       /\ Signaling.roomId (App.signaling (Relay.app (Relay.tabB s0)))
          = Some rid)
      /\ wire (Relay.cloud s0)
         = [(topic, Scenario.signal rid pb None SigJoin EmptyObject)]
      /\ wire (Relay.cloud (Relay.pump 1 s0))
         = [(topic, Scenario.signal rid pa (Some pb) SigOffer offer)]
      /\ wire (Relay.cloud (Relay.pump 2 s0))
         = [(topic, Scenario.signal rid pb (Some pa) SigAnswer answer)]
      /\ wire (Relay.cloud (Relay.pump 3 s0)) = []
      /\ App.statusClass (App.view a3) = App.connected
      /\ App.statusClass (App.view b3) = App.connected
      /\ Scenario.engine a3
         = Some {| Platform.signalingState := Platform.stable;
                   Platform.localDescription := Some offer;
                   Platform.remoteDescription := Some answer;
                   Platform.senders := ["audio"];
                   Platform.remoteCandidates := [] |}
      /\ Scenario.engine b3
         = Some {| Platform.signalingState := Platform.stable;
                   Platform.localDescription := Some answer;
                   Platform.remoteDescription := Some offer;
                   Platform.senders := ["audio"];
                   Platform.remoteCandidates := [] |}.
Proof.
  intros ra rb blobA blobB roomName rs tbl Hab Hn Hrs.
  apply String.eqb_neq in Hab, Hn.
  assert (Hba : (rb =? ra) = false) by (now rewrite String.eqb_sym).
  cbv zeta.
  change 3 with (1 + (1 + 1)). change 2 with (1 + 1).
  rewrite !pump_add.
  unfold Scenario.in_room, Scenario.start.
  destruct Hrs as [Hf | [r [Hf Hid]]]; [|apply String.eqb_neq in Hid];
    run_act; run_pump; rewrite pump_O; run_act;
    run_pump; rewrite pump_O; run_pump; rewrite pump_O;
    run_pump; rewrite pump_O;
    eexists; repeat split.
Qed.

(** C2, witness: "aaa" and "bbb" in room "demo". *)
Lemma offer_answer_round_trip_witness :
  let s0 := Scenario.in_room "demo"
              (Scenario.start "aaa" "bbb" (fresh_browser true true "sdp-a")
                 (fresh_browser true true "sdp-b") [] []) in
  wire (Relay.cloud (Relay.pump 3 s0)) = []
  /\ App.statusClass (App.view (Relay.app (Relay.tabA (Relay.pump 3 s0))))
     = App.connected
  /\ App.statusClass (App.view (Relay.app (Relay.tabB (Relay.pump 3 s0))))
     = App.connected.
Proof.
  cbv zeta.
  assert (H1 : "aaa" <> "bbb") by discriminate.
  assert (H2 : "demo" <> "") by discriminate.
  assert (H3 : resolves_once "demo" []) by (left; reflexivity).
  destruct (offer_answer_round_trip "aaa" "bbb" "sdp-a" "sdp-b" "demo"
              [] [] H1 H2 H3)
    as (rid & _ & _ & _ & _ & Hw & Ha & Hb & _).
  exact (conj Hw (conj Ha Hb)).
Defined.

(** * Further properties *)

(** ** More on SignalingService *)

(** X1.  sendSignal() on a service that is bound to no room throws
    'Not connected to a room' and does nothing else.  On a bound service
    it returns, leaves the service as it was, and makes one insert of the
    message stamped with the room and the own peer identifier, followed by
    one broadcast of the same message when a channel is held; with the
    backend reachable the message lands in the table and on the wire,
    otherwise nowhere. *)
Theorem sendSignal_stamps_and_publishes :
  forall (s : Signaling.SignalingService) (w : World) (kind : SignalType)
         (data : SignalData) (to : option string),
    (truthy (Signaling.roomId s) = false ->
       Signaling.sendSignal kind data to s w
       = (Thrown (JsError "Not connected to a room"), s, w))
    /\ (forall rid,
          Signaling.roomId s = Some rid -> rid <> "" ->
          let m := stamped s rid kind data to in
          let r := Signaling.sendSignal kind data to s w in
          outcome_of r = Returned tt
          /\ this_of r = s
          /\ trace (browser (world_of r))
             = trace (browser w)
                 ++ InsertSignal m
                    :: match Signaling.channel s with
                       | Some topic => [Broadcast topic m]
                       | None => []
                       end
          /\ console (browser (world_of r)) = console (browser w)
          /\ subscriptions (browser (world_of r)) = subscriptions (browser w)
          /\ rooms (backend (world_of r)) = rooms (backend w)
          /\ (online (browser w) = true ->
              signaling_table (backend (world_of r))
              = signaling_table (backend w) ++ [m]
              /\ wire (backend (world_of r))
                 = wire (backend w)
                     ++ match Signaling.channel s with
                        | Some topic => [(topic, m)]
                        | None => []
                        end)
          /\ (online (browser w) = false ->
              backend (world_of r) = backend w)).
Proof.
  intros [r p t cb] [[co mic on blob subs tr] [rs tbl wr]] kind data to.
  cbn [Signaling.roomId Signaling.channel online browser backend].
  split.
  - destruct r as [rid|]; cbn [truthy]; intros H; [|reflexivity].
    apply negb_false_iff in H. js_eval. reflexivity.
  - intros rid -> Hne. apply String.eqb_neq in Hne. unfold stamped.
    destruct t as [topic|], on; js_eval;
      rewrite <- ?app_assoc, ?app_nil_r;
      repeat (split; [reflexivity|]);
      (split; intros H; try discriminate H; repeat split).
Qed.

(** X1, witness: a joined service sends an offer. *)
Lemma sendSignal_stamps_and_publishes_witness :
  let s := App.signaling (Relay.app (Relay.tabA (Scenario.demo_waiting true))) in
  let w := Scenario.world_at Relay.A (Scenario.demo_waiting true) in
  this_of (Signaling.sendSignal SigOffer (SessionDescription SdpOffer "x")
             (Some "peer_bbb") s w) = s
  /\ signaling_table
       (backend (world_of
          (Signaling.sendSignal SigOffer (SessionDescription SdpOffer "x")
             (Some "peer_bbb") s w)))
     = signaling_table (backend w)
         ++ [stamped s "room-" SigOffer (SessionDescription SdpOffer "x")
               (Some "peer_bbb")].
Proof.
  cbv zeta.
  assert (H1 : Signaling.roomId
                 (App.signaling
                    (Relay.app (Relay.tabA (Scenario.demo_waiting true))))
               = Some "room-")
    by (vm_compute; reflexivity).
  assert (H2 : "room-" <> "") by discriminate.
  assert (H3 : online
                 (browser (Scenario.world_at Relay.A
                             (Scenario.demo_waiting true))) = true)
    by (vm_compute; reflexivity).
  destruct (proj2 (sendSignal_stamps_and_publishes
                     (App.signaling
                        (Relay.app (Relay.tabA (Scenario.demo_waiting true))))
                     (Scenario.world_at Relay.A (Scenario.demo_waiting true))
                     SigOffer (SessionDescription SdpOffer "x")
                     (Some "peer_bbb"))
              "room-" H1 H2)
    as (_ & Ht & _ & _ & _ & _ & Hon & _).
  exact (conj Ht (proj1 (Hon H3))).
Defined.

(** X2.  Two services that join the same room name one after the
    other get the same room identifier and the channel of that room; the
    second join inserts no row, and afterwards exactly one row carries the
    name. *)
Theorem joinRoom_never_duplicates_a_room :
  forall (roomName : string) (s1 s2 : Signaling.SignalingService)
         (w : World),
    online (browser w) = true ->
    resolves_once roomName (rooms (backend w)) ->
    let r1 := Signaling.joinRoom roomName s1 w in
    let r2 := Signaling.joinRoom roomName s2 (world_of r1) in
    exists rid,
      rid <> ""
      /\ outcome_of r1 = Returned (Signaling.peerId s1)
      /\ outcome_of r2 = Returned (Signaling.peerId s2)
      /\ Signaling.roomId (this_of r1) = Some rid
      /\ Signaling.roomId (this_of r2) = Some rid
      /\ Signaling.channel (this_of r1) = Some (Signaling.topic_of (Some rid))
      /\ Signaling.channel (this_of r2) = Some (Signaling.topic_of (Some rid))
      /\ rooms (backend (world_of r2)) = rooms (backend (world_of r1))
      /\ filter (fun r => name r =? roomName) (rooms (backend (world_of r2)))
         = [{| id := rid; name := roomName |}].
Proof.
  intros roomName [r1 p1 t1 cb1] [r2 p2 t2 cb2]
         [[co mic on blob subs tr] [rs tbl wr]].
  cbn [online browser backend rooms]. intros -> Hrs. cbv zeta.
  destruct Hrs as [Hf | [r [Hf Hid]]].
  - exists (id (fresh_room roomName rs)).
    split; [discriminate|].
    js_eval. repeat split.
  - exists (id r).
    assert (Hname : name r = roomName).
    { assert (Hin : In r (filter (fun r0 => name r0 =? roomName) rs))
        by (rewrite Hf; left; reflexivity).
      apply filter_In in Hin. now apply String.eqb_eq. }
    split; [exact Hid|]. apply String.eqb_neq in Hid.
    js_eval. destruct r as [i n]. cbn in Hname. subst n. repeat split.
Qed.

(** X2, witness: two new services join "demo" in front of an empty backend. *)
Lemma joinRoom_never_duplicates_a_room_witness :
  exists rid,
    Signaling.roomId
      (this_of (Signaling.joinRoom "demo" (Signaling.constructor "aaa")
                  (fresh_world true true))) = Some rid
    /\ Signaling.roomId
         (this_of (Signaling.joinRoom "demo" (Signaling.constructor "bbb")
                     (world_of (Signaling.joinRoom "demo"
                                  (Signaling.constructor "aaa")
                                  (fresh_world true true))))) = Some rid.
Proof.
  assert (H1 : online (browser (fresh_world true true)) = true)
    by reflexivity.
  assert (H2 : resolves_once "demo" (rooms (backend (fresh_world true true))))
    by (left; reflexivity).
  destruct (joinRoom_never_duplicates_a_room "demo"
              (Signaling.constructor "aaa") (Signaling.constructor "bbb")
              (fresh_world true true) H1 H2)
    as (rid & _ & _ & _ & Ha & Hb & _).
  exists rid. exact (conj Ha Hb).
Defined.

(** X3.  With the backend unreachable joinRoom() throws and leaves
    the service and the world exactly as they were: no room, no channel, no
    subscription, nothing published. *)
Theorem joinRoom_unreachable_backend_binds_nothing :
  forall (roomName : string) (s : Signaling.SignalingService) (w : World),
    online (browser w) = false ->
    exists e, Signaling.joinRoom roomName s w = (Thrown e, s, w).
Proof.
  intros roomName [r p t cb] [[co mic on blob subs tr] be].
  cbn [online browser]. intros ->.
  eexists. js_eval. reflexivity.
Qed.

(** X3, witness: a new service, the backend gone. *)
Lemma joinRoom_unreachable_backend_binds_nothing_witness :
  exists e,
    Signaling.joinRoom "demo" (Signaling.constructor "aaa")
      (fresh_world true false)
    = (Thrown e, Signaling.constructor "aaa", fresh_world true false).
Proof.
  exact (joinRoom_unreachable_backend_binds_nothing "demo"
           (Signaling.constructor "aaa") (fresh_world true false) eq_refl).
Defined.

(** X4.  joinRoom() followed by leave() gives back the service
    as it was before, removes the room's topic from the subscriptions, and
    has published exactly a `join` and then a `leave`, both broadcast
    without target and with empty payload. *)
Theorem join_then_leave_restores_the_service :
  forall (roomName : string) (s : Signaling.SignalingService) (w : World),
    online (browser w) = true ->
    resolves_once roomName (rooms (backend w)) ->
    Signaling.roomId s = None -> Signaling.channel s = None ->
    let r1 := Signaling.joinRoom roomName s w in
    let r2 := Signaling.leave (this_of r1) (world_of r1) in
    exists rid,
      let topic := Signaling.topic_of (Some rid) in
      Signaling.roomId (this_of r1) = Some rid
      /\ outcome_of r2 = Returned tt
      /\ this_of r2 = s
      /\ subscriptions (browser (world_of r2))
         = filter (fun t => negb (t =? topic)) (subscriptions (browser w))
      /\ signaling_table (backend (world_of r2))
         = signaling_table (backend w)
             ++ [stamped s rid SigJoin EmptyObject None;
                 stamped s rid SigLeave EmptyObject None]
      /\ wire (backend (world_of r2))
         = wire (backend w)
             ++ [(topic, stamped s rid SigJoin EmptyObject None);
                 (topic, stamped s rid SigLeave EmptyObject None)].
Proof.
  intros roomName [r p t cb] [[co mic on blob subs tr] [rs tbl wr]].
  cbn [online browser backend rooms Signaling.roomId Signaling.channel].
  intros -> Hrs -> ->. cbv zeta. unfold stamped.
  destruct Hrs as [Hf | [r [Hf Hid]]];
    [exists (id (fresh_room roomName rs))
    | exists (id r); apply String.eqb_neq in Hid];
    js_eval; rewrite <- ?app_assoc; repeat split.
Qed.

(** X4, witness: a new service joins "demo" and leaves. *)
Lemma join_then_leave_restores_the_service_witness :
  this_of
    (Signaling.leave
       (this_of (Signaling.joinRoom "demo" (Signaling.constructor "aaa")
                   (fresh_world true true)))
       (world_of (Signaling.joinRoom "demo" (Signaling.constructor "aaa")
                    (fresh_world true true))))
  = Signaling.constructor "aaa".
Proof.
  assert (H2 : resolves_once "demo" (rooms (backend (fresh_world true true))))
    by (left; reflexivity).
  destruct (join_then_leave_restores_the_service "demo"
              (Signaling.constructor "aaa") (fresh_world true true)
              eq_refl H2 eq_refl eq_refl)
    as (rid & _ & _ & Hs & _).
  exact Hs.
Defined.

Lemma perform_keeps_channel (op : Client.Op)
  (s : Signaling.SignalingService) (w : World) :
  channel_follows_room s ->
  channel_follows_room (this_of (Client.perform op s w)).
Proof.
  unfold channel_follows_room.
  destruct s as [r p t cb], w as [[co mic on blob subs tr] [rs tbl wr]].
  cbn [Signaling.roomId Signaling.channel]. intros ->.
  destruct op as [roomName| | | |].
  - destruct (filter (fun r0 => name r0 =? roomName) rs)
      as [|r0 [|r1 l]] eqn:Hf;
      destruct r as [rid|], on; cbn [option_map];
      try destruct (id r0 =? "") eqn:Hid0; js_eval; reflexivity.
  - destruct r as [rid|]; cbn [option_map]; by_cases; reflexivity.
  - destruct r as [rid|]; reflexivity.
  - destruct r as [rid|]; reflexivity.
  - destruct r as [rid|]; cbn [option_map]; by_cases; reflexivity.
Qed.

(** X5.  Whatever calls are made on a service after its
    construction, failing or not, it holds a channel exactly when it is
    bound to a room, and the channel's topic is `room:` followed by the
    room identifier. *)
Theorem channel_always_follows_room :
  forall (rnd : string) (ops : list Client.Op) (w : World),
    let s := fst (Client.run ops (Signaling.constructor rnd) w) in
    Signaling.channel s
    = option_map (fun r => Signaling.topic_of (Some r)) (Signaling.roomId s).
Proof.
  intros rnd ops w. cbv zeta.
  change (channel_follows_room
            (fst (Client.run ops (Signaling.constructor rnd) w))).
  assert (H0 : channel_follows_room (Signaling.constructor rnd))
    by reflexivity.
  revert H0. generalize (Signaling.constructor rnd). revert w.
  induction ops as [|op ops IH]; intros w s Hs; [exact Hs|].
  cbn [Client.run]. apply IH. now apply perform_keeps_channel.
Qed.

(** ** More on WebRTCConnection *)

(** X6.  When createOffer() or createAnswer() returns a
    description, that description is the local description of the peer
    connection, and nothing outside the connection has changed. *)
Theorem created_description_is_the_local_one :
  forall (c : WebRTC.WebRTCConnection) (w : World) (d : SignalData),
    (outcome_of (WebRTC.createOffer c w) = Returned d ->
       d = SessionDescription SdpOffer (sdp_blob (browser w))
       /\ option_map Platform.localDescription
            (WebRTC.peerConnection (this_of (WebRTC.createOffer c w)))
          = Some (Some d)
       /\ world_of (WebRTC.createOffer c w) = w)
    /\ (outcome_of (WebRTC.createAnswer c w) = Returned d ->
        d = SessionDescription SdpAnswer (sdp_blob (browser w))
        /\ option_map Platform.localDescription
             (WebRTC.peerConnection (this_of (WebRTC.createAnswer c w)))
           = Some (Some d)
        /\ world_of (WebRTC.createAnswer c w) = w).
Proof.
  intros [[[st ld rd sn rc]|] ls rs cb1 cb2] [[co mic on blob subs tr] be] d;
    split; try destruct st; cbn; intros H; inversion H; repeat split.
Qed.

(** X6, witness: an initialized connection creates an offer. *)
Lemma created_description_is_the_local_one_witness :
  let c1 := this_of (WebRTC.initialize WebRTC.new_WebRTCConnection
                       (fresh_world true true)) in
  option_map Platform.localDescription
    (WebRTC.peerConnection
       (this_of (WebRTC.createOffer c1 (fresh_world true true))))
  = Some (Some (SessionDescription SdpOffer "sdp")).
Proof.
  cbv zeta.
  assert (H : outcome_of
                (WebRTC.createOffer
                   (this_of (WebRTC.initialize WebRTC.new_WebRTCConnection
                               (fresh_world true true)))
                   (fresh_world true true))
              = Returned (SessionDescription SdpOffer "sdp"))
    by (vm_compute; reflexivity).
  exact (proj1 (proj2 (proj1 (created_description_is_the_local_one
                                (this_of (WebRTC.initialize
                                            WebRTC.new_WebRTCConnection
                                            (fresh_world true true)))
                                (fresh_world true true)
                                (SessionDescription SdpOffer "sdp")) H))).
Defined.

(** X7.  close() stops each track of the local stream once, then
    closes the peer connection if there is one; it keeps both registered
    callbacks and touches neither the console, the subscriptions nor the
    backend. *)
Theorem close_releases_stream_and_connection :
  forall (c : WebRTC.WebRTCConnection) (w : World),
    let r := WebRTC.close c w in
    trace (browser (world_of r))
    = trace (browser w)
        ++ repeat TrackStop
             (match WebRTC.localStream c with
              | Some s => length (Platform.tracks s)
              | None => 0
              end)
        ++ (if is_some (WebRTC.peerConnection c)
            then [PeerConnectionClose] else [])
    /\ WebRTC.onRemoteStreamCallback (this_of r)
       = WebRTC.onRemoteStreamCallback c
    /\ WebRTC.onIceCandidateCallback (this_of r)
       = WebRTC.onIceCandidateCallback c
    /\ console (browser (world_of r)) = console (browser w)
    /\ subscriptions (browser (world_of r)) = subscriptions (browser w)
    /\ backend (world_of r) = backend w.
Proof.
  intros c w. cbv zeta. rewrite close_eq. cbn [world_of this_of fst snd].
  assert (Hs : forall ts v,
             trace (browser (stopped ts v))
             = trace (browser v) ++ repeat TrackStop (length ts)
             /\ console (browser (stopped ts v)) = console (browser v)
             /\ subscriptions (browser (stopped ts v))
                = subscriptions (browser v)
             /\ backend (stopped ts v) = backend v).
  { induction ts as [|t ts IH]; intro v.
    - cbn. now rewrite app_nil_r.
    - cbn [stopped fold_left length repeat].
      destruct (IH (record_call TrackStop v)) as (H1 & H2 & H3 & H4).
      unfold stopped in *. rewrite H1, H2, H3, H4. cbn.
      rewrite <- app_assoc. repeat split. }
  destruct c as [pc [[ts]|] rs cb1 cb2], w as [[co mic on blob subs tr] be];
    unfold closed_world; cbn [WebRTC.localStream WebRTC.peerConnection
                              Platform.tracks is_some];
    try destruct (Hs ts
                    {| browser :=
                         {| console := co; mic_granted := mic; online := on;
                            sdp_blob := blob; subscriptions := subs;
                            trace := tr |};
                       backend := be |}) as (H1 & H2 & H3 & H4);
    destruct pc; cbn in *;
    rewrite ?H1, ?H2, ?H3, ?H4, ?app_nil_r, <- ?app_assoc;
    repeat split.
Qed.

(** ** More on ClickToTalkApp *)

(** X8.  The join button with an empty room name does nothing.
    With a name and the backend unreachable, the error is logged, the
    status line reads 'Failed to join room', the button is enabled again,
    the join form stays as it was, and neither the service, the session nor
    the backend has changed. *)
Theorem joinRoom_failure_restores_the_join_form :
  forall (roomName : string) (a : App.ClickToTalkApp) (w : World),
    App.joinRoom "" a w = (Returned tt, a, w)
    /\ (roomName <> "" -> online (browser w) = false ->
        let r := App.joinRoom roomName a w in
        outcome_of r = Returned tt
        /\ (exists e,
              console (browser (world_of r))
              = console (browser w) ++ [("Error joining room:", e)])
        /\ App.statusText (App.view (this_of r)) = "Failed to join room"
        /\ App.statusClass (App.view (this_of r)) = App.disconnected
        /\ App.joinButtonDisabled (App.view (this_of r)) = false
        /\ App.joinSectionHidden (App.view (this_of r))
           = App.joinSectionHidden (App.view a)
        /\ App.callSectionHidden (App.view (this_of r))
           = App.callSectionHidden (App.view a)
        /\ App.signaling (this_of r) = App.signaling a
        /\ App.webrtc (this_of r) = App.webrtc a
        /\ App.remotePeerId (this_of r) = App.remotePeerId a
        /\ App.isInitiator (this_of r) = App.isInitiator a
        /\ backend (world_of r) = backend w
        /\ subscriptions (browser (world_of r)) = subscriptions (browser w)
        /\ trace (browser (world_of r)) = trace (browser w)).
Proof.
  intros roomName [rtc [r p t cb] rp ini vw]
         [[co mic on blob subs tr] be].
  split; [reflexivity|].
  cbn [online browser]. intros Hn ->. apply String.eqb_neq in Hn.
  cbv zeta. js_eval.
  split; [reflexivity|]. split; [eexists; reflexivity|]. repeat split.
Qed.

(** X8, witness: a new controller, the backend gone. *)
Lemma joinRoom_failure_restores_the_join_form_witness :
  App.statusText
    (App.view (this_of (App.joinRoom "demo" (App.constructor "aaa")
                          (fresh_world true false))))
  = "Failed to join room"
  /\ App.joinButtonDisabled
       (App.view (this_of (App.joinRoom "demo" (App.constructor "aaa")
                             (fresh_world true false))))
     = false.
Proof.
  assert (H1 : "demo" <> "") by discriminate.
  destruct (proj2 (joinRoom_failure_restores_the_join_form "demo"
                     (App.constructor "aaa") (fresh_world true false))
              H1 eq_refl)
    as (_ & _ & Ht & _ & Hb & _).
  exact (conj Ht Hb).
Defined.

(** X9.  With a name, a reachable backend and a room name that
    resolves, the join button binds the service to the room, registers the
    message handler, shows the call section with 'Waiting for peer...' and
    the own identifier, and puts one `join` on the wire; the session's peer
    binding is untouched. *)
Theorem joinRoom_success_shows_the_call_view :
  forall (roomName : string) (a : App.ClickToTalkApp) (w : World),
    roomName <> "" -> online (browser w) = true ->
    resolves_once roomName (rooms (backend w)) ->
    let r := App.joinRoom roomName a w in
    let pid := Signaling.peerId (App.signaling a) in
    exists rid,
      let topic := Signaling.topic_of (Some rid) in
      outcome_of r = Returned tt
      /\ App.view (this_of r)
         = {| App.statusText := "Waiting for peer...";
              App.statusClass := App.connecting;
              App.peerInfoText := "Your ID: " ++ pid;
              App.joinButtonDisabled := true;
              App.joinSectionHidden := true;
              App.callSectionHidden := false |}
      /\ App.signaling (this_of r)
         = {| Signaling.roomId := Some rid;
              Signaling.peerId := pid;
              Signaling.channel := Some topic;
              Signaling.onMessageCallback :=
                Some Signaling.HandleSignalMessage |}
      /\ App.webrtc (this_of r) = App.webrtc a
      /\ App.remotePeerId (this_of r) = App.remotePeerId a
      /\ App.isInitiator (this_of r) = App.isInitiator a
      /\ subscriptions (browser (world_of r))
         = topic :: subscriptions (browser w)
      /\ wire (backend (world_of r))
         = wire (backend w)
             ++ [(topic,
                  {| room_id := rid; peer_id := pid; target_peer_id := None;
                     signal_type := SigJoin; signal_data := EmptyObject |})]
      /\ console (browser (world_of r)) = console (browser w).
Proof.
  intros roomName [rtc [r p t cb] rp ini vw]
         [[co mic on blob subs tr] [rs tbl wr]].
  cbn [online browser backend rooms]. intros Hn -> Hrs.
  apply String.eqb_neq in Hn. cbv zeta.
  destruct Hrs as [Hf | [r0 [Hf Hid]]];
    [exists (id (fresh_room roomName rs))
    | exists (id r0); apply String.eqb_neq in Hid];
    js_eval; repeat split.
Qed.

(** X9, witness: a new controller joins "demo". *)
Lemma joinRoom_success_shows_the_call_view_witness :
  exists rid,
    App.signaling (this_of (App.joinRoom "demo" (App.constructor "aaa")
                              (fresh_world true true)))
    = {| Signaling.roomId := Some rid;
         Signaling.peerId :=
           Signaling.peerId (App.signaling (App.constructor "aaa"));
         Signaling.channel := Some (Signaling.topic_of (Some rid));
         Signaling.onMessageCallback :=
           Some Signaling.HandleSignalMessage |}.
Proof.
  assert (H1 : "demo" <> "") by discriminate.
  assert (H2 : resolves_once "demo" (rooms (backend (fresh_world true true))))
    by (left; reflexivity).
  destruct (joinRoom_success_shows_the_call_view "demo"
              (App.constructor "aaa") (fresh_world true true)
              H1 eq_refl H2)
    as (rid & _ & _ & Hs & _).
  exists rid. exact Hs.
Defined.

(** X10.  A `join` that arrives while a peer is bound changes
    nothing, and handling any `join` a second time right after the first
    changes nothing either. *)
Theorem repeated_join_changes_nothing :
  forall (a : App.ClickToTalkApp) (w : World) (m : SignalMessage),
    signal_type m = SigJoin ->
    let r := App.handleSignalMessage m a w in
    (truthy (App.remotePeerId a) = true -> r = (Returned tt, a, w))
    /\ App.handleSignalMessage m (this_of r) (world_of r)
       = (Returned tt, this_of r, world_of r).
Proof.
  intros [rtc sg rp ini vw] [[co mic on blob subs tr] be]
         [rm from to kind data].
  cbn [signal_type App.remotePeerId]. intros ->. cbv zeta. split.
  - destruct rp as [p|]; cbn [truthy]; intros H; [|discriminate].
    apply negb_true_iff in H. js_eval. reflexivity.
  - destruct (from =? "") eqn:Hfrom;
      (destruct rp as [p|]; [destruct (p =? "") eqn:Hp|]);
      destruct rtc as [[pc ls rs cb1 cb2]|];
      try (js_eval; reflexivity);
      destruct mic; try (js_eval; reflexivity);
      destruct sg as [[rid|] pid [t|] cbm];
      try destruct (rid =? "") eqn:Hrid;
      destruct on; js_eval; reflexivity.
Qed.

(** X10, witness: a third peer joins while A is connected to B. *)
Lemma repeated_join_changes_nothing_witness :
  let a := Relay.app (Relay.tabA Scenario.demo_connected) in
  let w := Scenario.world_at Relay.A Scenario.demo_connected in
  let m := Scenario.signal Scenario.room_demo Scenario.peer_c None SigJoin
             EmptyObject in
  App.handleSignalMessage m a w = (Returned tt, a, w).
Proof.
  cbv zeta.
  assert (H : truthy
                (App.remotePeerId
                   (Relay.app (Relay.tabA Scenario.demo_connected)))
              = true)
    by (vm_compute; reflexivity).
  exact (proj1 (repeated_join_changes_nothing
                  (Relay.app (Relay.tabA Scenario.demo_connected))
                  (Scenario.world_at Relay.A Scenario.demo_connected)
                  (Scenario.signal Scenario.room_demo Scenario.peer_c None
                     SigJoin EmptyObject) eq_refl) H).
Defined.

(** X11.  Neither the message handler nor the channel listener
    reads room_id or target_peer_id: a message is handled the same way
    whatever room and whatever target it names. *)
Theorem handler_ignores_the_address :
  forall (a : App.ClickToTalkApp) (w : World) (m : SignalMessage)
         (room : string) (to : option string),
    App.handleSignalMessage (with_address room to m) a w
    = App.handleSignalMessage m a w
    /\ App.on_broadcast (with_address room to m) a w
       = App.on_broadcast m a w.
Proof.
  intros a w [rm from t kind data] room to. split; reflexivity.
Qed.

(** Evaluate around [leave()] and [close()], whose effect on the world is
    known from the lemmas about them. *)
Ltac js_around :=
  cbv -[String.eqb String.append Signaling.generatePeerId Signaling.topic_of
        filter tally length List.app id name fresh_room existsb
        Signaling.leave WebRTC.close closed_world stopped];
  rewrite ?close_eq;
  repeat match goal with
  | H : Signaling.leave _ _ = _ |- _ => rewrite H
  | H : (_ =? _) = _ |- _ => rewrite H
  end.

(** X12.  The leave button always returns.  It leaves the room
    through the service, closes and drops the connection object if there is
    one, unbinds the peer, clears the initiator flag, and shows the join
    form with status 'Disconnected'; the own identifier stays on the
    page. *)
Theorem leaveRoom_resets_the_session :
  forall (a : App.ClickToTalkApp) (w : World),
    let r := App.leaveRoom a w in
    let w1 := world_of (Signaling.leave (App.signaling a) w) in
    outcome_of r = Returned tt
    /\ this_of r
       = {| App.webrtc := None;
            App.signaling :=
              Signaling.set_roomId None
                (Signaling.set_channel None (App.signaling a));
            App.remotePeerId := None;
            App.isInitiator := false;
            App.view :=
              {| App.statusText := "Disconnected";
                 App.statusClass := App.disconnected;
                 App.peerInfoText := App.peerInfoText (App.view a);
                 App.joinButtonDisabled := false;
                 App.joinSectionHidden := false;
                 App.callSectionHidden := true |} |}
    /\ world_of r
       = match App.webrtc a with
         | Some c => closed_world c w1
         | None => w1
         end.
Proof.
  intros [rtc sg rp ini vw] w. cbv zeta.
  destruct (leave_this sg w) as [Ho Hs].
  destruct (Signaling.leave sg w) as [[o s'] w'] eqn:E.
  cbn [outcome_of this_of fst snd] in Ho, Hs. subst o s'.
  cbn [App.signaling App.webrtc world_of snd].
  destruct rtc as [c|], sg as [r p t cb]; repeat (progress js_around);
    repeat split.
Qed.

(** X13.  A `leave` from the bound peer closes and drops the
    connection object, unbinds the peer and shows 'Peer disconnected'; the
    initiator flag and the service keep their values and nothing is
    published. *)
Theorem remote_leave_releases_the_engine :
  forall (a : App.ClickToTalkApp) (w : World) (m : SignalMessage),
    signal_type m = SigLeave ->
    strict_eq (peer_id m) (App.remotePeerId a) = true ->
    App.handleSignalMessage m a w
    = (Returned tt,
       {| App.webrtc := None;
          App.signaling := App.signaling a;
          App.remotePeerId := None;
          App.isInitiator := App.isInitiator a;
          App.view :=
            {| App.statusText := "Peer disconnected";
               App.statusClass := App.disconnected;
               App.peerInfoText := App.peerInfoText (App.view a);
               App.joinButtonDisabled := App.joinButtonDisabled (App.view a);
               App.joinSectionHidden := App.joinSectionHidden (App.view a);
               App.callSectionHidden := App.callSectionHidden (App.view a) |} |},
       match App.webrtc a with
       | Some c => closed_world c w
       | None => w
       end).
Proof.
  intros [rtc sg rp ini vw] w [rm from to kind data].
  cbn [signal_type peer_id App.remotePeerId]. intros -> Heq.
  destruct rp as [p|]; cbn [strict_eq] in Heq; [|discriminate].
  destruct rtc as [c|]; repeat (progress js_around); reflexivity.
Qed.

(** X13, witness: B leaves while A is connected to it. *)
Lemma remote_leave_releases_the_engine_witness :
  let a := Relay.app (Relay.tabA Scenario.demo_connected) in
  let w := Scenario.world_at Relay.A Scenario.demo_connected in
  let m := Scenario.signal Scenario.room_demo Scenario.peer_b None SigLeave
             EmptyObject in
  App.webrtc (this_of (App.handleSignalMessage m a w)) = None
  /\ App.remotePeerId (this_of (App.handleSignalMessage m a w)) = None.
Proof.
  cbv zeta.
  assert (H : strict_eq
                (peer_id (Scenario.signal Scenario.room_demo Scenario.peer_b
                            None SigLeave EmptyObject))
                (App.remotePeerId
                   (Relay.app (Relay.tabA Scenario.demo_connected)))
              = true)
    by (vm_compute; reflexivity).
  rewrite (remote_leave_releases_the_engine
             (Relay.app (Relay.tabA Scenario.demo_connected))
             (Scenario.world_at Relay.A Scenario.demo_connected)
             (Scenario.signal Scenario.room_demo Scenario.peer_b None
                SigLeave EmptyObject) eq_refl H).
  exact (conj eq_refl eq_refl).
Defined.

(** X14.  The candidate event never throws.  The end-of-candidates
    event (null) is not forwarded, and nothing is sent while no peer is
    bound or no room is joined.  Otherwise the candidate is published as an
    `ice-candidate` message addressed to the bound peer, and the session is
    left as it was. *)
Theorem local_candidate_goes_to_the_bound_peer :
  forall (a : App.ClickToTalkApp) (w : World) (cand : SignalData)
         (candidate : option SignalData),
    outcome_of (Events.icecandidate_event candidate a w) = Returned tt
    /\ Events.icecandidate_event None a w = (Returned tt, a, w)
    /\ (truthy (App.remotePeerId a) = false ->
        Events.icecandidate_event candidate a w = (Returned tt, a, w))
    /\ (truthy (Signaling.roomId (App.signaling a)) = false ->
        Events.icecandidate_event candidate a w = (Returned tt, a, w))
    /\ (forall c pc peer rid topic,
          App.webrtc a = Some c -> WebRTC.peerConnection c = Some pc ->
          WebRTC.onIceCandidateCallback c = Some WebRTC.SendIceCandidate ->
          App.remotePeerId a = Some peer -> peer <> "" ->
          Signaling.roomId (App.signaling a) = Some rid -> rid <> "" ->
          Signaling.channel (App.signaling a) = Some topic ->
          online (browser w) = true ->
          let r := Events.icecandidate_event (Some cand) a w in
          let m := stamped (App.signaling a) rid SigIceCandidate cand
                     (Some peer) in
          this_of r = a
          /\ wire (backend (world_of r)) = wire (backend w) ++ [(topic, m)]
          /\ signaling_table (backend (world_of r))
             = signaling_table (backend w) ++ [m]).
Proof.
  intros [rtc [r p t cb] rp ini vw] [[co mic on blob subs tr] [rs tbl wr]]
         cand candidate.
  split; [|split; [|split; [|split]]].
  - destruct candidate, rtc as [[[pc|] ls rms cb1 [[]|]]|];
      try reflexivity;
      (destruct rp as [peer|]; [destruct (peer =? "") eqn:Hp|]);
      (destruct r as [rid|]; [destruct (rid =? "") eqn:Hr|]);
      destruct t, on; js_eval; reflexivity.
  - destruct rtc as [[[pc|] ls rms cb1 cb2]|]; reflexivity.
  - cbn [App.remotePeerId]. intros H.
    destruct rp as [peer|]; cbn [truthy] in H;
      [apply negb_false_iff in H|];
      destruct candidate, rtc as [[[pc|] ls rms cb1 [[]|]]|];
      js_eval; reflexivity.
  - cbn [App.signaling Signaling.roomId]. intros H.
    destruct r as [rid|]; cbn [truthy] in H;
      [apply negb_false_iff in H|];
      destruct candidate, rtc as [[[pc|] ls rms cb1 [[]|]]|];
      try reflexivity;
      (destruct rp as [peer|]; [destruct (peer =? "") eqn:Hp|]);
      js_eval; reflexivity.
  - intros c pc peer rid topic.
    cbn [App.webrtc App.remotePeerId App.signaling Signaling.roomId
         Signaling.channel online browser].
    intros -> Hpc Hcb -> Hpeer -> Hrid -> ->.
    destruct c as [opc ls rms cb1 cb2]. cbn in Hpc, Hcb. subst opc cb2.
    apply String.eqb_neq in Hpeer, Hrid. cbv zeta. unfold stamped.
    js_eval. repeat split.
Qed.

(** X14, witness: A, connected to B, gathers a candidate. *)
Lemma local_candidate_goes_to_the_bound_peer_witness :
  let a := Relay.app (Relay.tabA Scenario.demo_connected) in
  let w := Scenario.world_at Relay.A Scenario.demo_connected in
  wire (backend (world_of
          (Events.icecandidate_event (Some (IceCandidateInit "c1")) a w)))
  = wire (backend w)
      ++ [("room:room-",
           stamped (App.signaling a) "room-" SigIceCandidate
             (IceCandidateInit "c1") (Some Scenario.peer_b))].
Proof.
  cbv zeta.
  assert (H1 : App.webrtc (Relay.app (Relay.tabA Scenario.demo_connected))
               = Some (Scenario.connection_of
                         (Relay.app (Relay.tabA Scenario.demo_connected))))
    by (vm_compute; reflexivity).
  assert (H2 : WebRTC.peerConnection
                 (Scenario.connection_of
                    (Relay.app (Relay.tabA Scenario.demo_connected)))
               = Some (Scenario.pc_of
                         (Relay.app (Relay.tabA Scenario.demo_connected))))
    by (vm_compute; reflexivity).
  assert (H3 : WebRTC.onIceCandidateCallback
                 (Scenario.connection_of
                    (Relay.app (Relay.tabA Scenario.demo_connected)))
               = Some WebRTC.SendIceCandidate)
    by (vm_compute; reflexivity).
  assert (H4 : App.remotePeerId
                 (Relay.app (Relay.tabA Scenario.demo_connected))
               = Some Scenario.peer_b)
    by (vm_compute; reflexivity).
  assert (H5 : Scenario.peer_b <> "") by discriminate.
  assert (H6 : Signaling.roomId
                 (App.signaling
                    (Relay.app (Relay.tabA Scenario.demo_connected)))
               = Some "room-")
    by (vm_compute; reflexivity).
  assert (H7 : "room-" <> "") by discriminate.
  assert (H8 : Signaling.channel
                 (App.signaling
                    (Relay.app (Relay.tabA Scenario.demo_connected)))
               = Some "room:room-")
    by (vm_compute; reflexivity).
  assert (H9 : online
                 (browser (Scenario.world_at Relay.A Scenario.demo_connected))
               = true)
    by (vm_compute; reflexivity).
  destruct (local_candidate_goes_to_the_bound_peer
              (Relay.app (Relay.tabA Scenario.demo_connected))
              (Scenario.world_at Relay.A Scenario.demo_connected)
              (IceCandidateInit "c1") None)
    as (_ & _ & _ & _ & H).
  exact (proj1 (proj2 (H _ _ _ _ _ H1 H2 H3 H4 H5 H6 H7 H8 H9))).
Defined.

(** ** More on two sessions in one room *)

(** Evaluate a sub-scenario once, on its own, and put the result in its
    place. *)
Ltac settle t tac :=
  let E := fresh "E" in
  eassert (E : t = _) by (tac; reflexivity);
  rewrite E; clear E.

Ltac settle_meet :=
  lazymatch goal with
  | |- context [Relay.meet ?n ?nm ?f ?st] =>
      settle (Relay.meet n nm f st)
        ltac:(unfold Relay.meet, Scenario.start; cbn [Relay.other];
              run_act; run_pump; end_pump; run_act;
              run_pump; run_pump; run_pump; rewrite pump_O)
  end.

Ltac settle_act :=
  match goal with
  | |- context [Relay.act ?p ?m ?s] =>
      settled s; settle (Relay.act p m s) ltac:(js_eval)
  end.

(** [leaveRoom]: what [leave()] does in the tab is computed first. *)
Ltac settle_leaveRoom :=
  match goal with
  | |- context [Relay.act ?p App.leaveRoom ?s] =>
      settled s;
      let t :=
        eval cbv -[String.eqb String.append Signaling.generatePeerId
                   Signaling.topic_of filter tally length List.app id name
                   fresh_room existsb Signaling.leave WebRTC.close
                   closed_world stopped]
        in (Signaling.leave (App.signaling (Relay.app (Relay.tab p s)))
              {| browser := Relay.page (Relay.tab p s);
                 backend := Relay.cloud s |}) in
      let L := fresh "L" in
      eassert (L : t = _) by (js_eval; reflexivity);
      settle (Relay.act p App.leaveRoom s)
        ltac:(repeat (progress js_around); js_eval);
      clear L
  end.

Ltac settle_pump1 :=
  match goal with
  | |- context [Relay.pump 1 ?s] =>
      settled s; settle (Relay.pump 1 s) ltac:(run_pump; rewrite pump_O)
  end.

(** X15.  Once two sessions are connected, a local candidate of
    either one travels as one `ice-candidate` message addressed to the
    other and is added to the other's engine; the sender's engine takes
    nothing, and no error is logged on either side. *)
Theorem candidate_reaches_the_other_engine :
  forall (first sender : Relay.Who)
         (ra rb blobA blobB roomName cand : string)
         (rs : list Room) (tbl : list SignalMessage),
    ra <> rb -> roomName <> "" -> resolves_once roomName rs ->
    let s0 := Relay.meet 3 roomName first
                (Scenario.start ra rb (fresh_browser true true blobA)
                   (fresh_browser true true blobB) rs tbl) in
    let s1 := Relay.act sender
                (Events.icecandidate_event (Some (IceCandidateInit cand)))
                s0 in
    let s2 := Relay.pump 1 s1 in
    (exists topic m,
       wire (Relay.cloud s1) = [(topic, m)]
       /\ signal_type m = SigIceCandidate
       /\ signal_data m = IceCandidateInit cand
       /\ peer_id m
          = Signaling.peerId
              (App.signaling (Relay.app (Relay.tab sender s0)))
       /\ target_peer_id m
          = Some (Signaling.peerId
                    (App.signaling
                       (Relay.app (Relay.tab (Relay.other sender) s0)))))
    /\ wire (Relay.cloud s2) = []
    /\ option_map Platform.remoteCandidates
         (Scenario.engine (Relay.app (Relay.tab (Relay.other sender) s2)))
       = Some [cand]
    /\ option_map Platform.remoteCandidates
         (Scenario.engine (Relay.app (Relay.tab sender s2)))
       = Some []
    /\ console (Relay.page (Relay.tabA s2)) = []
    /\ console (Relay.page (Relay.tabB s2)) = [].
Proof.
  intros first sender ra rb blobA blobB roomName cand rs tbl Hab Hn Hrs.
  apply String.eqb_neq in Hab, Hn.
  assert (Hba : (rb =? ra) = false) by (now rewrite String.eqb_sym).
  cbv zeta.
  destruct Hrs as [Hf | [r [Hf Hid]]]; [|apply String.eqb_neq in Hid];
    destruct first, sender; cbn [Relay.other];
    settle_meet; settle_act; settle_pump1;
    (split; [do 2 eexists; repeat split|]); repeat split.
Qed.

(** X15, witness: B gathers a candidate after pairing with A. *)
Lemma candidate_reaches_the_other_engine_witness :
  let s0 := Relay.meet 3 "demo" Relay.A
              (Scenario.start "aaa" "bbb" (fresh_browser true true "sdp-a")
                 (fresh_browser true true "sdp-b") [] []) in
  let s2 := Relay.pump 1
              (Relay.act Relay.B
                 (Events.icecandidate_event (Some (IceCandidateInit "c1")))
                 s0) in
  option_map Platform.remoteCandidates
    (Scenario.engine (Relay.app (Relay.tab (Relay.other Relay.B) s2)))
  = Some ["c1"].
Proof.
  cbv zeta.
  assert (H1 : "aaa" <> "bbb") by discriminate.
  assert (H2 : "demo" <> "") by discriminate.
  assert (H3 : resolves_once "demo" []) by (left; reflexivity).
  destruct (candidate_reaches_the_other_engine Relay.A Relay.B
              "aaa" "bbb" "sdp-a" "sdp-b" "demo" "c1" [] [] H1 H2 H3)
    as (_ & _ & H & _).
  exact H.
Defined.

(** X16.  When either of two connected sessions presses the leave
    button and the relay has passed the `leave` on, both are unpaired and
    without connection object, each has stopped its one track and closed
    its peer connection; the one that left is out of the room, the other
    is still in it and subscribed, showing 'Peer disconnected'. *)
Theorem hang_up_frees_both_sessions :
  forall (first leaver : Relay.Who) (ra rb blobA blobB roomName : string)
         (rs : list Room) (tbl : list SignalMessage),
    ra <> rb -> roomName <> "" -> resolves_once roomName rs ->
    let s0 := Relay.meet 3 roomName first
                (Scenario.start ra rb (fresh_browser true true blobA)
                   (fresh_browser true true blobB) rs tbl) in
    let s := Relay.pump 1 (Relay.act leaver App.leaveRoom s0) in
    let gone := Relay.tab leaver s in
    let stay := Relay.tab (Relay.other leaver) s in
    wire (Relay.cloud s) = []
    /\ (App.role (Relay.app gone) = App.Unpaired
        /\ App.webrtc (Relay.app gone) = None
        /\ Signaling.roomId (App.signaling (Relay.app gone)) = None
        /\ subscriptions (Relay.page gone) = []
        /\ App.statusText (App.view (Relay.app gone)) = "Disconnected"
        /\ Events.count Events.is_trackStop (trace (Relay.page gone)) = 1
        /\ In PeerConnectionClose (trace (Relay.page gone)))
    /\ (App.role (Relay.app stay) = App.Unpaired
        /\ App.webrtc (Relay.app stay) = None
        /\ Signaling.roomId (App.signaling (Relay.app stay))
           = Signaling.roomId
               (App.signaling (Relay.app (Relay.tab (Relay.other leaver) s0)))
        /\ subscriptions (Relay.page stay)
           = subscriptions (Relay.page (Relay.tab (Relay.other leaver) s0))
        /\ App.statusText (App.view (Relay.app stay)) = "Peer disconnected"
        /\ App.statusClass (App.view (Relay.app stay)) = App.disconnected
        /\ Events.count Events.is_trackStop (trace (Relay.page stay)) = 1
        /\ In PeerConnectionClose (trace (Relay.page stay))).
Proof.
  intros first leaver ra rb blobA blobB roomName rs tbl Hab Hn Hrs.
  apply String.eqb_neq in Hab, Hn.
  assert (Hba : (rb =? ra) = false) by (now rewrite String.eqb_sym).
  cbv zeta.
  destruct Hrs as [Hf | [r [Hf Hid]]]; [|apply String.eqb_neq in Hid];
    destruct first, leaver; cbn [Relay.other];
    settle_meet; settle_leaveRoom; settle_pump1;
    cbn; auto 20.
Qed.

(** X16, witness: A hangs up on B. *)
Lemma hang_up_frees_both_sessions_witness :
  let s0 := Relay.meet 3 "demo" Relay.A
              (Scenario.start "aaa" "bbb" (fresh_browser true true "sdp-a")
                 (fresh_browser true true "sdp-b") [] []) in
  let s := Relay.pump 1 (Relay.act Relay.A App.leaveRoom s0) in
  wire (Relay.cloud s) = []
  /\ App.role (Relay.app (Relay.tab (Relay.other Relay.A) s)) = App.Unpaired
  /\ App.webrtc (Relay.app (Relay.tab (Relay.other Relay.A) s)) = None.
Proof.
  cbv zeta.
  assert (H1 : "aaa" <> "bbb") by discriminate.
  assert (H2 : "demo" <> "") by discriminate.
  assert (H3 : resolves_once "demo" []) by (left; reflexivity).
  destruct (hang_up_frees_both_sessions Relay.A Relay.A
              "aaa" "bbb" "sdp-a" "sdp-b" "demo" [] [] H1 H2 H3)
    as (Hw & _ & Hr & Hn & _).
  exact (conj Hw (conj Hr Hn)).
Defined.

Ltac settle_pump3 :=
  match goal with
  | |- context [Relay.pump 3 ?s] =>
      settled s;
      settle (Relay.pump 3 s)
        ltac:(run_pump; run_pump; run_pump; rewrite pump_O)
  end.

(** X17.  When the session that left joins the same room name
    again, no room is created, and the two pair again after three
    deliveries: the one that stayed is now initiator, the one that came
    back responder, each on a second microphone stream with the first one
    stopped. *)
Theorem rejoining_pairs_again :
  forall (first leaver : Relay.Who) (ra rb blobA blobB roomName : string)
         (rs : list Room) (tbl : list SignalMessage),
    ra <> rb -> roomName <> "" -> resolves_once roomName rs ->
    let s0 := Relay.meet 3 roomName first
                (Scenario.start ra rb (fresh_browser true true blobA)
                   (fresh_browser true true blobB) rs tbl) in
    let s1 := Relay.pump 1 (Relay.act leaver App.leaveRoom s0) in
    let s2 := Relay.pump 3 (Relay.act leaver (App.joinRoom roomName) s1) in
    let back := Relay.tab leaver s2 in
    let stay := Relay.tab (Relay.other leaver) s2 in
    wire (Relay.cloud s2) = []
    /\ rooms (Relay.cloud s2) = rooms (Relay.cloud s0)
    /\ App.role (Relay.app stay) = App.Initiator
    /\ App.role (Relay.app back) = App.Responder
    /\ App.remotePeerId (Relay.app stay)
       = Some (Signaling.peerId (App.signaling (Relay.app back)))
    /\ App.remotePeerId (Relay.app back)
       = Some (Signaling.peerId (App.signaling (Relay.app stay)))
    /\ App.statusClass (App.view (Relay.app stay)) = App.connected
    /\ App.statusClass (App.view (Relay.app back)) = App.connected
    /\ option_map Platform.signalingState (Scenario.engine (Relay.app stay))
       = Some Platform.stable
    /\ option_map Platform.signalingState (Scenario.engine (Relay.app back))
       = Some Platform.stable
    /\ Events.count Events.is_getUserMedia (trace (Relay.page stay)) = 2
    /\ Events.count Events.is_trackStop (trace (Relay.page stay)) = 1
    /\ Events.count Events.is_getUserMedia (trace (Relay.page back)) = 2
    /\ Events.count Events.is_trackStop (trace (Relay.page back)) = 1.
Proof.
  intros first leaver ra rb blobA blobB roomName rs tbl Hab Hn Hrs.
  apply String.eqb_neq in Hab, Hn.
  assert (Hba : (rb =? ra) = false) by (now rewrite String.eqb_sym).
  cbv zeta.
  destruct Hrs as [Hf | [r [Hf Hid]]]; [|apply String.eqb_neq in Hid];
    destruct first, leaver; cbn [Relay.other];
    settle_meet; settle_leaveRoom; settle_pump1; settle_act; settle_pump3;
    repeat split.
Qed.

(** X17, witness: A hangs up on B and joins again. *)
Lemma rejoining_pairs_again_witness :
  let s0 := Relay.meet 3 "demo" Relay.A
              (Scenario.start "aaa" "bbb" (fresh_browser true true "sdp-a")
                 (fresh_browser true true "sdp-b") [] []) in
  let s1 := Relay.pump 1 (Relay.act Relay.A App.leaveRoom s0) in
  let s2 := Relay.pump 3 (Relay.act Relay.A (App.joinRoom "demo") s1) in
  App.role (Relay.app (Relay.tab (Relay.other Relay.A) s2)) = App.Initiator
  /\ App.role (Relay.app (Relay.tab Relay.A s2)) = App.Responder.
Proof.
  cbv zeta.
  assert (H1 : "aaa" <> "bbb") by discriminate.
  assert (H2 : "demo" <> "") by discriminate.
  assert (H3 : resolves_once "demo" []) by (left; reflexivity).
  destruct (rejoining_pairs_again Relay.A Relay.A
              "aaa" "bbb" "sdp-a" "sdp-b" "demo" [] [] H1 H2 H3)
    as (_ & _ & Hi & Hr & _).
  exact (conj Hi Hr).
Defined.

(** ** What a session keeps, whatever happens to it *)

Lemma count_app (f : Call -> bool) (l1 l2 : list Call) :
  Events.count f (l1 ++ l2) = Events.count f l1 + Events.count f l2.
Proof. unfold Events.count. now rewrite filter_app, length_app. Qed.

Lemma census_log_error (label : string) (e : Error) (w : World) :
  census (log_error label e w) = census w.
Proof. reflexivity. Qed.

Lemma census_record_call (c : Call) (w : World) :
  census (record_call c w)
  = (fst (fst (census w)),
     snd (fst (census w)) + (if Events.is_getUserMedia c then 1 else 0),
     snd (census w) + (if Events.is_trackStop c then 1 else 0)).
Proof.
  unfold census. destruct w as [[co mic on blob subs tr] be].
  cbn [record_call on_browser browser trace mic_granted fst snd].
  rewrite !count_app. destruct c; reflexivity.
Qed.

(** Calls that concern neither the microphone nor its tracks. *)
Ltac census_same :=
  unfold census; cbn [browser trace mic_granted];
  rewrite ?count_app; cbn; rewrite ?Nat.add_0_r; reflexivity.

(** *** Summaries of the methods the controller calls *)

Lemma sendSignal_summary (k : SignalType) (d : SignalData)
  (t : option string) (s : Signaling.SignalingService) (w : World) :
  exists o w',
    Signaling.sendSignal k d t s w = (o, s, w') /\ census w' = census w.
Proof.
  destruct s as [[r|] p [c|] cb], w as [[co mic [|] blob subs tr] be];
    try destruct (r =? "") eqn:E;
    do 2 eexists; (split; [js_eval; reflexivity | census_same]).
Qed.

Lemma leave_summary (s : Signaling.SignalingService) (w : World) :
  exists w',
    Signaling.leave s w
    = (Returned tt,
       Signaling.set_roomId None (Signaling.set_channel None s), w')
    /\ census w' = census w.
Proof.
  destruct s as [[r|] p [c|] cb], w as [[co mic [|] blob subs tr] be];
    try destruct (r =? "") eqn:E;
    eexists; (split; [js_eval; reflexivity | census_same]).
Qed.

Lemma joinRoom_summary (n : string) (s : Signaling.SignalingService)
  (w : World) :
  exists o r' c' w',
    Signaling.joinRoom n s w
    = (o, Signaling.set_roomId r' (Signaling.set_channel c' s), w')
    /\ census w' = census w.
Proof.
  destruct s as [r p c cb], w as [[co mic on blob subs tr] [rs tbl wr]].
  destruct (filter (fun r0 => name r0 =? n) rs) as [|r0 [|r1 l]] eqn:Hf;
    destruct on; try destruct (id r0 =? "") eqn:Hid;
    eexists; eexists (_ : option string); eexists (_ : option string);
    eexists;
    (split; [js_eval; reflexivity | census_same]).
Qed.

Lemma initialize_summary (c : WebRTC.WebRTCConnection) (w : World) :
  exists o pc' ls' w',
    WebRTC.initialize c w
    = (o, WebRTC.set_peerConnection pc' (WebRTC.set_localStream ls' c), w')
    /\ census w'
       = (fst (fst (census w)), S (snd (fst (census w))), snd (census w))
    /\ (if fst (fst (census w))
        then o = Returned tt /\ ls' = Some Platform.microphone
        else returns o = false /\ ls' = WebRTC.localStream c).
Proof.
  destruct c as [pc ls rs cb1 cb2], w as [[co [|] on blob subs tr] be];
    eexists; eexists (_ : option Platform.RTCPeerConnection);
    eexists (_ : option Platform.MediaStream); eexists;
    (split; [js_eval; reflexivity|]);
    (split; [unfold census; cbn [browser trace mic_granted fst snd];
             rewrite ?count_app; cbn; now rewrite Nat.add_1_r, Nat.add_0_r
            | cbn; split; reflexivity]).
Qed.

Lemma close_summary (c : WebRTC.WebRTCConnection) (w : World) :
  exists w',
    WebRTC.close c w
    = (Returned tt,
       WebRTC.set_peerConnection None
         (WebRTC.set_remoteStream None (WebRTC.set_localStream None c)), w')
    /\ census w'
       = (fst (fst (census w)), snd (fst (census w)),
          snd (census w)
          + match WebRTC.localStream c with
            | Some s => length (Platform.tracks s)
            | None => 0
            end).
Proof.
  rewrite close_eq. eexists. split; [reflexivity|].
  assert (Hs : forall ts v,
             census (stopped ts v)
             = (fst (fst (census v)), snd (fst (census v)),
                snd (census v) + length ts)).
  { induction ts as [|t ts IH]; intro v.
    - cbn. now rewrite Nat.add_0_r.
    - cbn [stopped fold_left length].
      change (fold_left (fun v0 _ => record_call TrackStop v0) ts
                (record_call TrackStop v))
        with (stopped ts (record_call TrackStop v)).
      rewrite IH, census_record_call. cbn [fst snd Events.is_getUserMedia
                                           Events.is_trackStop].
      f_equal; [f_equal|]; lia. }
  unfold closed_world.
  destruct (WebRTC.localStream c) as [s|], (WebRTC.peerConnection c);
    rewrite ?census_record_call, ?Hs;
    cbn [fst snd Events.is_getUserMedia Events.is_trackStop];
    rewrite ?Nat.add_0_r; reflexivity.
Qed.

Ltac pc_only_tac :=
  intros [[pc|] ls rs cb1 cb2] w;
  unfold WebRTC.createOffer, WebRTC.createAnswer, WebRTC.handleOffer,
    WebRTC.handleAnswer, WebRTC.addIceCandidate, WebRTC.ask_pc, WebRTC.on_pc;
  cbn;
  repeat match goal with
  | |- context [match ?x with Returned _ => _ | Thrown _ => _ end] =>
      destruct x; cbn
  end;
  first [ eexists; eexists (Some _); reflexivity
        | eexists; exists (Some pc); reflexivity
        | eexists; exists None; reflexivity ].

Lemma pc_only_createOffer : pc_only WebRTC.createOffer.
Proof. pc_only_tac. Qed.

Lemma pc_only_createAnswer : pc_only WebRTC.createAnswer.
Proof. pc_only_tac. Qed.

Lemma pc_only_handleOffer d : pc_only (WebRTC.handleOffer d).
Proof. pc_only_tac. Qed.

Lemma pc_only_handleAnswer d : pc_only (WebRTC.handleAnswer d).
Proof. pc_only_tac. Qed.

Lemma pc_only_addIceCandidate d : pc_only (WebRTC.addIceCandidate d).
Proof. pc_only_tac. Qed.

(** *** Running a handler over the summaries *)

Ltac sx_cbv :=
  cbv -[String.eqb census log_error Nat.add
        WebRTC.initialize WebRTC.createOffer WebRTC.createAnswer
        WebRTC.handleOffer WebRTC.handleAnswer WebRTC.addIceCandidate
        WebRTC.close Signaling.sendSignal Signaling.leave Signaling.joinRoom];
  rewrite ?census_log_error, ?String.eqb_refl;
  repeat match goal with
  | H : (_ =? _) = _ |- _ => rewrite H
  end.

Ltac sx_outcome o :=
  first [ subst o | destruct o as [[]|?] | destruct o ].

Ltac sx_call :=
  match goal with
  | |- context [WebRTC.initialize ?c ?w] =>
      let o := fresh "o" in let E := fresh "E" in
      let Hc := fresh "Hcensus" in let Hk := fresh "Hk" in
      destruct (initialize_summary c w) as (o & ? & ? & ? & E & Hc & Hk);
      rewrite E; clear E;
      repeat match goal with
      | H : census _ = _ |- _ =>
          tryif constr_eq H Hc then fail else rewrite H in Hc, Hk
      end;
      cbn [fst snd] in Hc, Hk;
      match type of Hk with
      | if ?b then _ else _ => destruct b
      | _ => idtac
      end;
      destruct Hk as [? ?]; subst; try sx_outcome o; try discriminate
  | |- context [WebRTC.close ?c ?w] =>
      let E := fresh "E" in let Hc := fresh "Hcensus" in
      destruct (close_summary c w) as (? & E & Hc);
      rewrite E; clear E;
      repeat match goal with
      | H : census _ = _ |- _ =>
          tryif constr_eq H Hc then fail else rewrite H in Hc
      end;
      cbn [fst snd] in Hc
  | |- context [Signaling.sendSignal ?k ?d ?t ?s ?w] =>
      let o := fresh "o" in let E := fresh "E" in
      let Hc := fresh "Hcensus" in
      destruct (sendSignal_summary k d t s w) as (o & ? & E & Hc);
      rewrite E; clear E; sx_outcome o
  | |- context [Signaling.leave ?s ?w] =>
      let E := fresh "E" in let Hc := fresh "Hcensus" in
      destruct (leave_summary s w) as (? & E & Hc);
      rewrite E; clear E
  | |- context [Signaling.joinRoom ?n ?s ?w] =>
      let o := fresh "o" in let E := fresh "E" in
      let Hc := fresh "Hcensus" in
      destruct (joinRoom_summary n s w) as (o & ? & ? & ? & E & Hc);
      rewrite E; clear E; sx_outcome o
  | |- context [WebRTC.createOffer ?c ?w] =>
      let o := fresh "o" in let E := fresh "E" in
      destruct (pc_only_createOffer c w) as (o & ? & E);
      rewrite E; clear E; sx_outcome o
  | |- context [WebRTC.createAnswer ?c ?w] =>
      let o := fresh "o" in let E := fresh "E" in
      destruct (pc_only_createAnswer c w) as (o & ? & E);
      rewrite E; clear E; sx_outcome o
  | |- context [WebRTC.handleOffer ?d ?c ?w] =>
      let o := fresh "o" in let E := fresh "E" in
      destruct (pc_only_handleOffer d c w) as (o & ? & E);
      rewrite E; clear E; sx_outcome o
  | |- context [WebRTC.handleAnswer ?d ?c ?w] =>
      let o := fresh "o" in let E := fresh "E" in
      destruct (pc_only_handleAnswer d c w) as (o & ? & E);
      rewrite E; clear E; sx_outcome o
  | |- context [WebRTC.addIceCandidate ?d ?c ?w] =>
      let o := fresh "o" in let E := fresh "E" in
      destruct (pc_only_addIceCandidate d c w) as (o & ? & E);
      rewrite E; clear E; sx_outcome o
  end.

Ltac sx_test :=
  match goal with
  | |- context [if ?x =? ?y then _ else _] =>
      let E := fresh "Htest" in destruct (x =? y) eqn:E
  end.

Ltac sx := sx_cbv; repeat (first [sx_call | sx_test]; sx_cbv).

(** What is left to show once a handler has run. *)
Ltac sx_done :=
  repeat match goal with
  | H : census _ = _ |- _ => rewrite H
  end;
  cbn [fst snd WebRTC.localStream Platform.tracks length];
  repeat split;
  try solve
    [ reflexivity
    | discriminate
    | exact I
    | left; reflexivity
    | right; reflexivity
    | intros; lia
    | intros; subst; lia
    | assumption
    | let H := fresh in
      intros H; inversion H; subst;
      match goal with
      | E : (?x =? ?x) = false |- _ =>
          rewrite String.eqb_refl in E; discriminate
      end
    | let H := fresh in intros H; inversion H; subst; congruence ].

(** One event keeps the pairing, the own identifier, the grant and the
    balance of streams taken and tracks stopped. *)
Lemma step_keeps (e : Events.Event) (a : App.ClickToTalkApp) (w : World) :
  paired a -> 
  paired (this_of (Events.step e a w))
  /\ Signaling.peerId (App.signaling (this_of (Events.step e a w)))
     = Signaling.peerId (App.signaling a)
  /\ fst (fst (census (world_of (Events.step e a w))))
     = fst (fst (census w))
  /\ (balanced a w ->
      balanced (this_of (Events.step e a w)) (world_of (Events.step e a w))).
Proof.
  destruct a as [rtc [r p t cb] rp ini vw].
  unfold paired at 1, stream_ok, balanced at 1.
  cbn [App.webrtc App.remotePeerId App.signaling Signaling.peerId].
  destruct (census w) as [[mic g] s] eqn:Hw. cbn [fst snd].
  intros (H1 & H2 & H3).
  destruct rtc as [[pc ls rms cb1 cb2]|], rp as [peer|];
    try discriminate H1; cbn [WebRTC.localStream] in H3;
    try destruct H3 as [-> | ->];
    (destruct e as [n| |[rm from to kind data]|cand];
     [ (* join button *)
       destruct (n =? "") eqn:Hn
     | (* leave button *)
       idtac
     | (* broadcast *)
       cbn [Events.step];
       destruct (from =? p) eqn:Hself, cb as [[]|];
       try destruct (peer =? "") eqn:Hpeer;
       try destruct (from =? peer) eqn:Hfp;
       destruct kind
     | (* local candidate *)
       destruct cand; try destruct pc; try destruct cb2 as [[]|];
       try destruct (peer =? "") eqn:Hpeer ]).
  all: sx; sx_done.
Qed.
(** The same over a whole sequence of events. *)
Lemma run_keeps (es : list Events.Event) :
  forall (a : App.ClickToTalkApp) (w : World),
    paired a ->
    paired (fst (Events.run es a w))
    /\ Signaling.peerId (App.signaling (fst (Events.run es a w)))
       = Signaling.peerId (App.signaling a)
    /\ fst (fst (census (snd (Events.run es a w)))) = fst (fst (census w))
    /\ (balanced a w ->
        balanced (fst (Events.run es a w)) (snd (Events.run es a w))).
Proof.
  induction es as [|e es IH]; intros a w Ha.
  - cbn [Events.run fst snd]. auto.
  - cbn [Events.run]. cbv zeta.
    destruct (step_keeps e a w Ha) as (Hp & Hid & Hmic & Hbal).
    destruct (IH _ (world_of (Events.step e a w)) Hp)
      as (Hp' & Hid' & Hmic' & Hbal').
    split; [exact Hp'|].
    split; [now rewrite Hid'|].
    split; [now rewrite Hmic'|].
    intro Hb. exact (Hbal' (Hbal Hb)).
Qed.

(** A new controller has neither peer nor connection object. *)
Lemma constructor_paired (rnd : string) : paired (App.constructor rnd).
Proof.
  unfold paired, stream_ok. cbn. repeat split. discriminate.
Qed.

(** X19.  Whatever join clicks, leave clicks, broadcasts and local
    candidate events a new controller handles one after the other, and
    whatever fails on the way, it holds a connection object exactly while a
    remote peer is bound. *)
Theorem engine_held_exactly_while_bound (rnd : string)
  (es : list Events.Event) (w : World) :
  let a := fst (Events.run es (App.constructor rnd) w) in
  is_some (App.webrtc a) = is_some (App.remotePeerId a).
Proof.
  intro a. subst a.
  exact (proj1 (proj1 (run_keeps es _ w (constructor_paired rnd)))).
Qed.

(** X20.  After any such sequence of events the controller's own
    peer identifier is still the generated one, and the bound remote peer
    is never the controller itself. *)
Theorem session_never_binds_itself (rnd : string)
  (es : list Events.Event) (w : World) :
  let a := fst (Events.run es (App.constructor rnd) w) in
  Signaling.peerId (App.signaling a) = Signaling.generatePeerId rnd
  /\ App.remotePeerId a <> Some (Signaling.generatePeerId rnd).
Proof.
  intro a. subst a.
  destruct (run_keeps es _ w (constructor_paired rnd))
    as ((_ & Hself & _) & Hid & _).
  rewrite Hid in Hself. cbn [App.constructor App.signaling
    Signaling.constructor Signaling.peerId] in Hself, Hid.
  split; [exact Hid | exact Hself].
Qed.

(** X21.  With the microphone granted and no stream taken before,
    after any such sequence of events every getUserMedia call is matched by
    one stopped track or by the one track the held connection object still
    carries: no microphone stream is dropped without being stopped, and at
    most one is held. *)
Theorem microphone_is_never_leaked (rnd : string)
  (es : list Events.Event) (w : World) :
  mic_granted (browser w) = true ->
  Events.count Events.is_getUserMedia (trace (browser w))
  = Events.count Events.is_trackStop (trace (browser w)) ->
  let r := Events.run es (App.constructor rnd) w in
  Events.count Events.is_getUserMedia (trace (browser (snd r)))
  = Events.count Events.is_trackStop (trace (browser (snd r)))
    + Events.held (fst r)
  /\ Events.held (fst r) <= 1.
Proof.
  intros Hmic H0 r. subst r.
  destruct (run_keeps es _ w (constructor_paired rnd))
    as ((_ & _ & Hs) & _ & Hm & Hb).
  split.
  - unfold balanced, census in Hb, Hm. cbn [fst snd] in Hb, Hm.
    rewrite Hm in Hb. apply Hb; [|exact Hmic].
    intros _. cbn. rewrite Nat.add_0_r. exact H0.
  - unfold stream_ok in Hs. unfold Events.held.
    destruct (App.webrtc _) as [c|]; [|lia].
    destruct Hs as [-> | ->]; cbn; lia.
Qed.

(** X21, witness: a session pairs, hangs up, joins again and pairs with a
    third peer. *)
Lemma microphone_is_never_leaked_witness :
  mic_granted (browser (fresh_world true true)) = true
  /\ Events.count Events.is_getUserMedia
       (trace (browser (fresh_world true true)))
     = Events.count Events.is_trackStop
         (trace (browser (fresh_world true true)))
  /\ (let r :=
        Events.run
          [Events.JoinClick "demo";
           Events.Broadcasted
             (Scenario.signal "room-" "peer_bbb" None SigJoin EmptyObject);
           Events.LeaveClick;
           Events.JoinClick "demo";
           Events.Broadcasted
             (Scenario.signal "room-" "peer_ccc" None SigJoin EmptyObject)]
          (App.constructor "aaa") (fresh_world true true) in
      Events.count Events.is_getUserMedia (trace (browser (snd r)))
      = Events.count Events.is_trackStop (trace (browser (snd r)))
        + Events.held (fst r)
      /\ Events.held (fst r) <= 1).
Proof.
  assert (H1 : mic_granted (browser (fresh_world true true)) = true)
    by reflexivity.
  assert (H2 : Events.count Events.is_getUserMedia
                 (trace (browser (fresh_world true true)))
               = Events.count Events.is_trackStop
                   (trace (browser (fresh_world true true))))
    by reflexivity.
  exact (conj H1 (conj H2 (microphone_is_never_leaked "aaa" _ _ H1 H2))).
Defined.

(** X18, witness: a third peer answers while A is connected to B. *)
Lemma stale_sender_ignored_unless_offer_witness :
  let a := Relay.app (Relay.tabA Scenario.demo_connected) in
  let w := Scenario.world_at Relay.A Scenario.demo_connected in
  let m := Scenario.signal Scenario.room_demo Scenario.peer_c
             (Some Scenario.peer_a) SigAnswer
             (SessionDescription SdpAnswer "sdp-c") in
  App.handleSignalMessage m a w = (Returned tt, a, w).
Proof.
  cbv zeta.
  assert (H1 : App.remotePeerId
                 (Relay.app (Relay.tabA Scenario.demo_connected))
               = Some Scenario.peer_b)
    by (vm_compute; reflexivity).
  assert (H2 : Scenario.peer_b <> "") by discriminate.
  assert (H3 : peer_id
                 (Scenario.signal Scenario.room_demo Scenario.peer_c
                    (Some Scenario.peer_a) SigAnswer
                    (SessionDescription SdpAnswer "sdp-c"))
               <> Scenario.peer_b) by discriminate.
  assert (H4 : signal_type
                 (Scenario.signal Scenario.room_demo Scenario.peer_c
                    (Some Scenario.peer_a) SigAnswer
                    (SessionDescription SdpAnswer "sdp-c"))
               <> SigOffer) by discriminate.
  exact (stale_sender_ignored_unless_offer
           (Relay.app (Relay.tabA Scenario.demo_connected))
           (Scenario.world_at Relay.A Scenario.demo_connected)
           (Scenario.signal Scenario.room_demo Scenario.peer_c
              (Some Scenario.peer_a) SigAnswer
              (SessionDescription SdpAnswer "sdp-c"))
           Scenario.peer_b H1 H2 H3 H4).
Defined.
